(** * capablanca-api: the persistence schema of [api/models.py]

    The module declares Django models ([Result], [Board], [Piece], [Move],
    [Position], [Claim], ...) and one class method, [Board.from_fen], which
    delegates FEN parsing to the [chess] library.  This development embeds

    - the Python values, exceptions and name resolution the module relies on,
    - the part of Django's [Model] machinery the module exercises (field
      declarations, defaults, [Model.__init__] with keyword arguments,
      [Field.validate] for [choices]),
    - the model classes themselves, constant by constant,

    and then states the properties of the schema as theorems. *)

From Stdlib Require Import String Ascii List ZArith Bool Lia FinFun.
Import ListNotations.
Open Scope string_scope.

Set Implicit Arguments.

(** ** Python values and exceptions *)

(** The values that reach a model attribute of this module.  A UUID is kept
    in its canonical textual form; [VRel m pk] is an instance of model [m]
    with primary key [pk], as passed for a foreign key. *)
Inductive pyval : Type :=
| VNone
| VBool (b : bool)
| VInt (z : Z)
| VStr (s : string)
| VUuid (canonical : string)
| VRel (model : string) (pk : option Z).

(** The exceptions the module can let escape.  [TypeError what] names what
    was refused: for [Model.__init__] the unexpected keyword.  [Raised]
    stands for any other exception class, by name. *)
Inductive exception : Type :=
| TypeError (what : string)
| NameError (name : string)
| AttributeError (attr : string)
| ValueError (msg : string)
| ValidationError (field code : string)
| Raised (cls msg : string).

Definition exc_class (e : exception) : string :=
  match e with
  | TypeError _ => "TypeError"
  | NameError _ => "NameError"
  | AttributeError _ => "AttributeError"
  | ValueError _ => "ValueError"
  | ValidationError _ _ => "ValidationError"
  | Raised cls _ => cls
  end.

(** A computation either returns or raises. *)
Inductive py (A : Type) : Type :=
| Return (a : A)
| Raise (e : exception).

Arguments Return {A} a.
Arguments Raise {A} e.

Definition bind {A B : Type} (c : py A) (k : A -> py B) : py B :=
  match c with
  | Return a => k a
  | Raise e => Raise e
  end.

Notation "x <- c ;; k" := (bind c (fun x => k))
  (at level 61, c at next level, right associativity).

Fixpoint mapM {A B : Type} (f : A -> py B) (l : list A) : py (list B) :=
  match l with
  | [] => Return []
  | a :: l' => b <- f a ;; bs <- mapM f l' ;; Return (b :: bs)
  end.

(** Python's [==] on the values above: [bool] is a subclass of [int], model
    instances compare by model and (non-null) primary key. *)
Definition py_eq (a b : pyval) : bool :=
  match a, b with
  | VNone, VNone => true
  | VBool x, VBool y => Bool.eqb x y
  | VBool x, VInt y | VInt y, VBool x => Z.eqb (if x then 1 else 0) y
  | VInt x, VInt y => Z.eqb x y
  | VStr x, VStr y => String.eqb x y
  | VUuid x, VUuid y => String.eqb x y
  | VRel m (Some x), VRel n (Some y) => String.eqb m n && Z.eqb x y
  | _, _ => false
  end.

(** ** Dictionaries

    A [dict] keeps insertion order, which decides which unexpected keyword
    [Model.__init__] reports first. *)
Definition dict : Type := list (string * pyval).

Fixpoint get (k : string) (d : dict) : option pyval :=
  match d with
  | [] => None
  | (k', v) :: d' => if String.eqb k k' then Some v else get k d'
  end.

Fixpoint remove (k : string) (d : dict) : dict :=
  match d with
  | [] => []
  | (k', v) :: d' => if String.eqb k k' then remove k d' else (k', v) :: remove k d'
  end.

(** [d.pop(k)], with [None] for [KeyError]. *)
Definition pop (k : string) (d : dict) : option (pyval * dict) :=
  match get k d with
  | Some v => Some (v, remove k d)
  | None => None
  end.

(** [d[k] = v], in place when [k] is present and at the end otherwise. *)
Fixpoint set (k : string) (v : pyval) (d : dict) : dict :=
  match d with
  | [] => [(k, v)]
  | (k', v') :: d' => if String.eqb k k' then (k, v) :: d' else (k', v') :: set k v d'
  end.

Definition keys (d : dict) : list string := map fst d.

Definition mem (k : string) (l : list string) : bool := existsb (String.eqb k) l.

(** ** [str.upper] on ASCII text *)

Definition upper_ascii (c : ascii) : ascii :=
  let n := nat_of_ascii c in
  if andb (Nat.leb 97 n) (Nat.leb n 122) then ascii_of_nat (n - 32) else c.

Fixpoint upper (s : string) : string :=
  match s with
  | EmptyString => EmptyString
  | String c s' => String (upper_ascii c) (upper s')
  end.

(** ** Django fields *)

Inductive field_class : Type :=
| AutoField | IntegerField | CharField | TextField | DateTimeField
| BooleanField | UUIDField | ForeignKey | OneToOneField.

Inductive on_delete_rule : Type := CASCADE.

(** The keyword arguments a field declaration of this module uses. *)
Inductive field_option : Type :=
| default (v : pyval)
| default_callable (qualname : string)
| null (b : bool)
| choices (cs : list (pyval * string))
| max_length (n : nat)
| auto_now (b : bool)
| auto_now_add (b : bool)
| primary_key (b : bool)
| on_delete (r : on_delete_rule)
| related_name (s : string).

Record Field : Type := mkField {
  name : string;
  cls : field_class;
  to : option string;
  options : list field_option
}.

Definition field (c : field_class) (n : string) (os : list field_option) : Field :=
  mkField n c None os.

Definition related (c : field_class) (n target : string) (os : list field_option) : Field :=
  mkField n c (Some target) os.

Section FieldOptions.
Variable f : Field.

Fixpoint find_option {A : Type} (sel : field_option -> option A)
         (os : list field_option) : option A :=
  match os with
  | [] => None
  | o :: os' => match sel o with Some a => Some a | None => find_option sel os' end
  end.

Definition flag (sel : field_option -> option bool) : bool :=
  match find_option sel (options f) with Some b => b | None => false end.

Definition is_null : bool := flag (fun o => match o with null b => Some b | _ => None end).
Definition is_primary_key : bool :=
  flag (fun o => match o with primary_key b => Some b | _ => None end).
Definition is_auto_now : bool :=
  flag (fun o => match o with auto_now b => Some b | _ => None end).
Definition is_auto_now_add : bool :=
  flag (fun o => match o with auto_now_add b => Some b | _ => None end).

Definition get_choices : option (list (pyval * string)) :=
  find_option (fun o => match o with choices cs => Some cs | _ => None end) (options f).

Definition get_max_length : option nat :=
  find_option (fun o => match o with max_length n => Some n | _ => None end) (options f).

(** [Field.attname]: a relation stores the key under [<name>_id]. *)
Definition attname : string :=
  match cls f with
  | ForeignKey | OneToOneField => name f ++ "_id"
  | _ => name f
  end.

Definition is_relation : bool :=
  match cls f with ForeignKey | OneToOneField => true | _ => false end.

(** [Field.empty_strings_allowed]. *)
Definition empty_strings_allowed : bool :=
  match cls f with CharField | TextField => true | _ => false end.

(** [Field.blank]: false unless set; Django sets it (and clears [editable])
    for [auto_now]/[auto_now_add] dates and sets it for an automatic key. *)
Definition is_blank : bool :=
  match cls f with
  | AutoField => true
  | DateTimeField => is_auto_now || is_auto_now_add
  | _ => false
  end.

Definition is_editable : bool :=
  match cls f with
  | DateTimeField => negb (is_auto_now || is_auto_now_add)
  | _ => true
  end.

(** [Field.get_default]: the declared default (a callable is called; the
    only callable default of the module is [uuid.uuid4], whose outcome
    [fresh] is supplied by the caller), else [None] or the empty string. *)
Definition get_default (fresh : string) : pyval :=
  match find_option (fun o => match o with
                              | default v => Some v
                              | default_callable _ => Some (VUuid fresh)
                              | _ => None end) (options f) with
  | Some v => v
  | None => if negb empty_strings_allowed || is_null then VNone else VStr ""
  end.

(** The first components of [choices], the values the field admits. *)
Definition choice_values : list pyval :=
  match get_choices with Some cs => map fst cs | None => [] end.
End FieldOptions.

(** ** Python expressions and name resolution

    The [__str__] methods of the module are attribute reads and f-strings.
    A name is looked up in the local scope of the function, then among the
    module's globals, then among the builtins; the body of the enclosing
    class is not a scope for its methods. *)

#[warnings="-register-all"] Inductive expr : Type :=
| Name (id : string)
| Attribute (value : expr) (attr : string)
| JoinedStr (parts : list expr).

Record instance : Type := mkInstance {
  inst_model : string;
  attrs : dict
}.

Inductive object : Type :=
| Instance (i : instance)
| Value (v : pyval)
| Global (qualname : string).

(** The names bound at the top level of [api/models.py] when a method runs:
    the imports and the classes. *)
Definition module_globals : list string :=
  [ "chess"; "uuid"; "random";
    "Model"; "IntegerField"; "CharField"; "TextField"; "DateTimeField";
    "BooleanField"; "UUIDField"; "OneToOneField"; "ForeignKey"; "CASCADE";
    "settings";
    "Elo"; "Result"; "Board"; "Piece"; "Game"; "Move"; "Position"; "Claim";
    "ClaimItem";
    "__name__"; "__doc__"; "__package__"; "__loader__"; "__spec__";
    "__file__"; "__cached__"; "__builtins__" ].

(** The names of Python's [builtins] module. *)
Definition builtins : list string :=
  [ "abs"; "aiter"; "all"; "anext"; "any"; "ascii"; "bin"; "bool";
    "breakpoint"; "bytearray"; "bytes"; "callable"; "chr"; "classmethod";
    "compile"; "complex"; "copyright"; "credits"; "delattr"; "dict"; "dir";
    "divmod"; "enumerate"; "eval"; "exec"; "exit"; "filter"; "float";
    "format"; "frozenset"; "getattr"; "globals"; "hasattr"; "hash"; "help";
    "hex"; "id"; "input"; "int"; "isinstance"; "issubclass"; "iter"; "len";
    "license"; "list"; "locals"; "map"; "max"; "memoryview"; "min"; "next";
    "object"; "oct"; "open"; "ord"; "pow"; "print"; "property"; "quit";
    "range"; "repr"; "reversed"; "round"; "set"; "setattr"; "slice";
    "sorted"; "staticmethod"; "str"; "sum"; "super"; "tuple"; "type";
    "vars"; "zip"; "__import__"; "__build_class__"; "__debug__";
    "None"; "True"; "False"; "Ellipsis"; "NotImplemented";
    "BaseException"; "BaseExceptionGroup"; "Exception"; "ExceptionGroup";
    "GeneratorExit"; "KeyboardInterrupt"; "SystemExit"; "StopIteration";
    "StopAsyncIteration"; "ArithmeticError"; "AssertionError";
    "AttributeError"; "BlockingIOError"; "BrokenPipeError"; "BufferError";
    "BytesWarning"; "ChildProcessError"; "ConnectionAbortedError";
    "ConnectionError"; "ConnectionRefusedError"; "ConnectionResetError";
    "DeprecationWarning"; "EOFError"; "EncodingWarning"; "EnvironmentError";
    "FileExistsError"; "FileNotFoundError"; "FloatingPointError";
    "FutureWarning"; "IOError"; "ImportError"; "ImportWarning";
    "IndentationError"; "IndexError"; "InterruptedError";
    "IsADirectoryError"; "KeyError"; "LookupError"; "MemoryError";
    "ModuleNotFoundError"; "NameError"; "NotADirectoryError";
    "NotImplementedError"; "OSError"; "OverflowError";
    "PendingDeprecationWarning"; "PermissionError"; "ProcessLookupError";
    "RecursionError"; "ReferenceError"; "ResourceWarning"; "RuntimeError";
    "RuntimeWarning"; "SyntaxError"; "SyntaxWarning"; "SystemError";
    "TabError"; "TimeoutError"; "TypeError"; "UnboundLocalError";
    "UnicodeDecodeError"; "UnicodeEncodeError"; "UnicodeError";
    "UnicodeTranslateError"; "UnicodeWarning"; "UserWarning"; "ValueError";
    "Warning"; "ZeroDivisionError" ].

Section Evaluation.

(** [format(value, '')], as an f-string applies it to each of its parts; the
    runtime's formatting is left abstract. *)
Variable format : object -> py string.

(** The local scope of a method call: its parameters. *)
Variable locals : list (string * object).

Fixpoint lookup_local (id : string) (l : list (string * object)) : option object :=
  match l with
  | [] => None
  | (k, o) :: l' => if String.eqb id k then Some o else lookup_local id l'
  end.

Definition resolve (id : string) : py object :=
  match lookup_local id locals with
  | Some o => Return o
  | None =>
      if mem id module_globals then Return (Global id)
      else if mem id builtins then Return (Global ("builtins." ++ id))
      else Raise (NameError id)
  end.

(** Attribute reads are modelled on model instances, the only receivers the
    methods of this module use. *)
Definition getattr (o : object) (attr : string) : py object :=
  match o with
  | Instance i =>
      match get attr (attrs i) with
      | Some v => Return (Value v)
      | None => Raise (AttributeError attr)
      end
  | _ => Raise (AttributeError attr)
  end.

Fixpoint eval (e : expr) : py object :=
  match e with
  | Name id => resolve id
  | Attribute v attr => o <- eval v ;; getattr o attr
  | JoinedStr parts =>
      s <- (fix join (ps : list expr) : py string :=
              match ps with
              | [] => Return ""
              | p :: ps' =>
                  o <- eval p ;; s <- format o ;; rest <- join ps' ;;
                  Return (s ++ rest)
              end) parts ;;
      Return (Value (VStr s))
  end.

End Evaluation.

(** ** Django models *)

Record Model : Type := mkModel {
  model_name : string;
  declared : list Field;
  str_method : option expr
}.

(** [Model._meta.fields]: Django adds an automatic [id] key, ahead of the
    declared fields, when no declared field is a primary key. *)
Definition fields (m : Model) : list Field :=
  if existsb is_primary_key (declared m) then declared m
  else field AutoField "id" [primary_key true] :: declared m.

Definition field_names (m : Model) : list string := map name (fields m).

(** [Model._meta.get_field], on the forward fields: by name or by attname. *)
Definition get_field (m : Model) (n : string) : option Field :=
  find (fun f => String.eqb n (name f) || String.eqb n (attname f)) (fields m).

Definition pk_field (m : Model) : option Field := find is_primary_key (fields m).

(** The names one field answers to: the attname, and for a relation the
    field name as well. *)
Definition names_of (f : Field) : list string :=
  if is_relation f then [name f; attname f] else [attname f].

Definition attribute_names (m : Model) : list string :=
  flat_map names_of (fields m).

(** The keywords [Model.__init__] takes: those names and the [pk] property. *)
Definition accepted_keywords (m : Model) : list string :=
  "pk" :: attribute_names m.

(** Assigning a related object through a foreign key's descriptor stores the
    object's key under the attname; anything but [None] or an instance of the
    target model is refused. *)
Definition set_related (f : Field) (rel_obj : pyval) : py pyval :=
  match rel_obj with
  | VNone => Return VNone
  | VRel m pk =>
      if match to f with Some t => String.eqb m t | None => false end
      then Return (match pk with Some k => VInt k | None => VNone end)
      else Raise (ValueError (name f))
  | _ => Raise (ValueError (name f))
  end.

(** The loop of [Model.__init__] over the fields: each takes its value from
    the keywords (popping it) or its default.  The state is the pair of the
    keywords still unused and the attributes set so far. *)
Fixpoint init_fields (fs : list Field) (fresh : string) (kwargs self : dict)
  : py (dict * dict) :=
  match fs with
  | [] => Return (kwargs, self)
  | f :: fs' =>
      if is_relation f then
        match pop (name f) kwargs with
        | Some (rel_obj, kwargs') =>
            v <- set_related f rel_obj ;;
            init_fields fs' fresh kwargs' (set (attname f) v self)
        | None =>
            match pop (attname f) kwargs with
            | Some (val, kwargs') => init_fields fs' fresh kwargs' (set (attname f) val self)
            | None => init_fields fs' fresh kwargs (set (attname f) (get_default f fresh) self)
            end
        end
      else
        match pop (attname f) kwargs with
        | Some (val, kwargs') => init_fields fs' fresh kwargs' (set (attname f) val self)
        | None => init_fields fs' fresh kwargs (set (attname f) (get_default f fresh) self)
        end
  end.

(** The keywords left over must be properties or fields; they are set and
    deleted from the keywords, the others stay. *)
Fixpoint init_properties (m : Model) (rest : dict) (self : dict) : dict * dict :=
  match rest with
  | [] => ([], self)
  | (prop, v) :: rest' =>
      if String.eqb prop "pk" then
        init_properties m rest'
          (match pk_field m with Some f => set (attname f) v self | None => self end)
      else
        match get_field m prop with
        | Some f => init_properties m rest' (set prop v self)
        | None =>
            let '(unknown, self') := init_properties m rest' self in
            ((prop, v) :: unknown, self')
        end
  end.

(** The constructor call with keyword arguments.  The first keyword that is neither a field nor a
    property raises [TypeError].  Positional arguments and reverse accessors
    are not modelled: the module passes neither. *)
Definition Model_init (m : Model) (kwargs : dict) (fresh : string) : py instance :=
  st <- init_fields (fields m) fresh kwargs [] ;;
  let '(rest, self) := st in
  let '(unknown, self') := init_properties m rest self in
  match unknown with
  | [] => Return (mkInstance (model_name m) self')
  | (kwarg, _) :: _ => Raise (TypeError kwarg)
  end.

(** [Field.empty_values], as far as [pyval] reaches. *)
Definition is_empty_value (v : pyval) : bool :=
  match v with
  | VNone => true
  | VStr s => String.eqb s ""
  | _ => false
  end.

(** [Field.validate]: [choices], [null] and [blank]. *)
Definition validate (f : Field) (value : pyval) : py unit :=
  if negb (is_editable f) then Return tt
  else
    match get_choices f with
    | Some cs =>
        if negb (is_empty_value value)
           && negb (existsb (fun c => py_eq value (fst c)) cs)
        then Raise (ValidationError (name f) "invalid_choice")
        else
          if (match value with VNone => true | _ => false end) && negb (is_null f)
          then Raise (ValidationError (name f) "null")
          else if negb (is_blank f) && is_empty_value value
               then Raise (ValidationError (name f) "blank")
               else Return tt
    | None =>
        if (match value with VNone => true | _ => false end) && negb (is_null f)
        then Raise (ValidationError (name f) "null")
        else if negb (is_blank f) && is_empty_value value
             then Raise (ValidationError (name f) "blank")
             else Return tt
    end.

(** [str(obj)]: the class's [__str__] is called with [self] bound to the
    instance, and must return a string.  A model without its own [__str__]
    inherits Django's, which prints the class name and the key. *)
Definition str (format : object -> py string) (m : Model) (self : instance) : py string :=
  match str_method m with
  | Some body =>
      o <- eval format [("self", Instance self)] body ;;
      match o with
      | Value (VStr s) => Return s
      | _ => Raise (TypeError "__str__")
      end
  | None =>
      let pk := match pk_field m with
                | Some f => match get (attname f) (attrs self) with
                            | Some v => v | None => VNone end
                | None => VNone
                end in
      s <- format (Value pk) ;;
      Return (model_name m ++ " object (" ++ s ++ ")")
  end.

(** ** The [chess] library, as the module sees it

    [api/models.py] uses three things of the library: the constructor
    [chess.Board(fen)] with the attributes read from its result, the list
    [chess.SQUARE_NAMES], and the module attributes [chess.A1] ...
    [chess.H8] fetched with [getattr].  The library is not part of the
    repository; it is an interface here. *)
Module chess.

Record Board : Type := mkBoard {
  fen : string;                (* the outcome of [board.fen()] *)
  turn : bool;
  castling_rights : Z;
  ep_square : option Z;
  fullmove_number : Z;
  halfmove_clock : Z
}.

(** The library's name for the canonical starting position; [api/models.py]
    writes the literal out. *)
Definition STARTING_FEN : string :=
  "rnbqkbnr/pppppppp/8/8/8/8/PPPPPPPP/RNBQKBNR w KQkq - 0 1".

Class Library : Type := {
  Board__init__ : string -> py Board;
  SQUARE_NAMES : list string;
  module_getattr : string -> py pyval
}.

End chess.

(** ** The models of [api/models.py] *)

Module Result.

Definition WHITE_WINS := "White wins".
Definition BLACK_WINS := "Black wins".
Definition DRAW := "Draw".
Definition IN_PROGRESS := "In progress".

Definition ABANDONED := "Abandoned".
Definition ADJUDICATION := "Adjudication".
Definition DEATH := "Death".
Definition EMERGENCY := "Emergency".
Definition NORMAL := "Normal".
Definition RULES_INFRACTION := "Rules infraction".
Definition TIME_FORFEIT := "Time forfeit".
Definition UNTERMINATED := "Unterminated".

Definition RESULT_CHOICES : list (pyval * string) :=
  [ (VStr WHITE_WINS, "White wins");
    (VStr BLACK_WINS, "Black wins");
    (VStr DRAW, "Drawn game");
    (VStr IN_PROGRESS,
     "Game still in progress, game abandoned, or result otherwise unknown") ].

Definition TERMINATION_CHOICES : list (pyval * string) :=
  [ (VStr ABANDONED, "Abandoned game.");
    (VStr ADJUDICATION, "Result due to third party adjudication process.");
    (VStr DEATH, "One or both players died during the course of this game.");
    (VStr EMERGENCY, "Game concluded due to unforeseen circumstances.");
    (VStr NORMAL, "Game terminated in a normal fashion.");
    (VStr RULES_INFRACTION,
     "Administrative forfeit due to losing player's failure to observe either the Laws of Chess or the event regulations.");
    (VStr TIME_FORFEIT,
     "Loss due to losing player's failure to meet time control requirements.");
    (VStr UNTERMINATED, "Game not terminated.") ].

Definition result : Field :=
  field TextField "result" [choices RESULT_CHOICES; default (VStr IN_PROGRESS)].

Definition termination : Field :=
  field TextField "termination" [choices TERMINATION_CHOICES; default (VStr UNTERMINATED)].

Definition model : Model :=
  mkModel "Result" [result; termination]
          (Some (Attribute (Name "self") "result")).

End Result.

Module Board.

Definition BLACK_PIECES : list string := ["q"; "k"; "b"; "n"; "r"; "p"].
Definition WHITE_PIECES : list string := map upper BLACK_PIECES.

Definition fen : Field :=
  field TextField "fen"
        [default (VStr "rnbqkbnr/pppppppp/8/8/8/8/PPPPPPPP/RNBQKBNR w KQkq - 0 1")].
Definition turn : Field := field IntegerField "turn" [null true].
Definition castling_xfen : Field := field TextField "castling_xfen" [null true].
Definition ep_square : Field := field CharField "ep_square" [max_length 2; null true].
Definition fullmove_number : Field := field IntegerField "fullmove_number" [default (VInt 1)].
Definition halfmove_clock : Field := field IntegerField "halfmove_clock" [default (VInt 0)].
Definition updated_at : Field := field DateTimeField "updated_at" [auto_now true].
Definition game_uuid : Field := field UUIDField "game_uuid" [default_callable "uuid.uuid4"].

Definition model : Model :=
  mkModel "Board"
          [fen; turn; castling_xfen; ep_square; fullmove_number; halfmove_clock;
           updated_at; game_uuid]
          (Some (Attribute (Name "self") "fen")).

(** The dictionary [from_fen] builds from the parsed board. *)
Definition board_data (board : chess.Board) : dict :=
  [ ("fen", VStr (chess.fen board));
    ("turn", VBool (chess.turn board));
    ("castling_rights", VInt (chess.castling_rights board));
    ("ep_square", match chess.ep_square board with Some sq => VInt sq | None => VNone end);
    ("fullmove_number", VInt (chess.fullmove_number board));
    ("halfmove_clock", VInt (chess.halfmove_clock board)) ].

(** [Board.from_fen]: parse with the library, then construct the model from
    the dictionary.  [fresh] is what [uuid.uuid4] would return for
    [game_uuid]. *)
Definition from_fen {L : chess.Library} (fen : string) (fresh : string) : py instance :=
  board <- chess.Board__init__ fen ;;
  Model_init model (board_data board) fresh.

End Board.

Module Piece.

Definition BLACK_PAWN := "P".
Definition BLACK_KNIGHT := "N".
Definition BLACK_BISHOP := "B".
Definition BLACK_ROOK := "R".
Definition BLACK_QUEEN := "Q".
Definition BLACK_KING := "K".
Definition WHITE_PAWN := "p".
Definition WHITE_KNIGHT := "n".
Definition WHITE_BISHOP := "b".
Definition WHITE_ROOK := "r".
Definition WHITE_QUEEN := "q".
Definition WHITE_KING := "k".

Definition PIECE_CHOICES : list (pyval * string) :=
  [ (VStr BLACK_PAWN, "Black pawn");
    (VStr BLACK_KNIGHT, "Black knight");
    (VStr BLACK_BISHOP, "Black bishop");
    (VStr BLACK_ROOK, "Black rook");
    (VStr BLACK_QUEEN, "Black queen");
    (VStr BLACK_KING, "Black king");
    (VStr WHITE_PAWN, "White pawn");
    (VStr WHITE_KNIGHT, "White knight");
    (VStr WHITE_BISHOP, "White bishop");
    (VStr WHITE_ROOK, "White rook");
    (VStr WHITE_QUEEN, "White queen");
    (VStr WHITE_KING, "White king") ].

(** The comprehension over [chess.SQUARE_NAMES]; a name the library does not
    define makes [getattr] raise while the class body runs. *)
Definition SQUARE_CHOICES {L : chess.Library} : py (list (pyval * string)) :=
  mapM (fun i => sq <- chess.module_getattr (upper i) ;; Return (sq, upper i))
       chess.SQUARE_NAMES.

Definition piece_type : Field :=
  field CharField "piece_type" [max_length 1; choices PIECE_CHOICES].

Definition square (square_choices : list (pyval * string)) : Field :=
  field CharField "square" [max_length 2; choices square_choices; null true].

Definition captured : Field := field BooleanField "captured" [default (VBool false)].
Definition board : Field := related ForeignKey "board" "Board" [on_delete CASCADE].

Definition model {L : chess.Library} : py Model :=
  square_choices <- SQUARE_CHOICES ;;
  Return (mkModel "Piece"
                  [piece_type; square square_choices; captured; board]
                  (Some (Attribute (Name "self") "piece_type"))).

End Piece.

Module Move.

Definition timestamp : Field := field DateTimeField "timestamp" [auto_now_add true].
Definition piece : Field := related ForeignKey "piece" "Piece" [on_delete CASCADE].
Definition from_square : Field := field TextField "from_square" [].
Definition to_square : Field := field TextField "to_square" [].

Definition model : Model :=
  mkModel "Move" [timestamp; piece; from_square; to_square]
          (Some (JoinedStr [Name "from_square"; Name "to_square"])).

End Move.

Module Position.

Definition piece_file : Field := field CharField "piece_file" [max_length 1].
Definition piece_rank : Field := field CharField "piece_rank" [max_length 1].
Definition timestamp : Field := field DateTimeField "timestamp" [auto_now_add true].
Definition uuid : Field := field UUIDField "uuid" [default_callable "uuid.uuid4"].
Definition piece : Field := related ForeignKey "piece" "Piece" [on_delete CASCADE].

Definition model : Model :=
  mkModel "Position" [piece_file; piece_rank; timestamp; uuid; piece]
          (Some (JoinedStr [Name "piece_file"; Name "piece_rank"])).

End Position.

Module Claim.

Definition THREEFOLD_REPETITION := "tr".
Definition FIFTY_MOVES := "ft".
Definition DRAW := "d".

Definition CLAIM_CHOICES : list (pyval * string) :=
  [ (VStr THREEFOLD_REPETITION, "Threefold repetition");
    (VStr FIFTY_MOVES, "Fifty moves");
    (VStr DRAW, "Draw") ].

Definition claim_type : Field :=
  field CharField "claim_type" [max_length 2; choices CLAIM_CHOICES].

Definition model : Model :=
  mkModel "Claim" [claim_type] (Some (Attribute (Name "self") "claim_type")).

End Claim.

(** ** Squares

    Modelled from the spec: the contents of [chess.SQUARE_NAMES] and of the
    constants [chess.A1] ... [chess.H8], which the library defines and the
    repository only reads.  A square is an index 0-63, rank-major, and its
    algebraic name is the file letter followed by the rank digit. *)
Definition FILE_NAMES : list string := ["a"; "b"; "c"; "d"; "e"; "f"; "g"; "h"].
Definition RANK_NAMES : list string := ["1"; "2"; "3"; "4"; "5"; "6"; "7"; "8"].

Definition square_name (i : nat) : string :=
  nth (i mod 8) FILE_NAMES "" ++ nth (i / 8) RANK_NAMES "".

(** What the repository expects of the library's square table. *)
Record rank_major_squares (L : chess.Library) : Prop := {
  names_rank_major : chess.SQUARE_NAMES = map square_name (seq 0 64);
  constants_are_indices :
    forall i, (i < 64)%nat ->
      chess.module_getattr (upper (square_name i)) = Return (VInt (Z.of_nat i))
}.

(** A small instance of the interface, on which the definitions can be run:
    it builds the starting position, refuses every other string with
    [ValueError], and numbers the squares rank-major. *)
Module StartOnly.

Definition starting_board : chess.Board :=
  {| chess.fen := chess.STARTING_FEN;
     chess.turn := true;
     chess.castling_rights := 0x8100000000000081;
     chess.ep_square := None;
     chess.fullmove_number := 1;
     chess.halfmove_clock := 0 |}.

Definition Board__init__ (fen : string) : py chess.Board :=
  if String.eqb fen chess.STARTING_FEN then Return starting_board
  else Raise (ValueError fen).

Definition SQUARE_NAMES : list string := map square_name (seq 0 64).

Fixpoint index (x : string) (l : list string) (from : nat) : option nat :=
  match l with
  | [] => None
  | y :: l' => if String.eqb x y then Some from else index x l' (S from)
  end.

Definition module_getattr (attr : string) : py pyval :=
  match index attr (map upper SQUARE_NAMES) 0 with
  | Some i => Return (VInt (Z.of_nat i))
  | None => Raise (AttributeError attr)
  end.

Definition library : chess.Library :=
  {| chess.Board__init__ := Board__init__;
     chess.SQUARE_NAMES := SQUARE_NAMES;
     chess.module_getattr := module_getattr |}.

End StartOnly.

(** The colour a choice label names: the word before the first space. *)
Fixpoint first_word (s : string) : string :=
  match s with
  | EmptyString => EmptyString
  | String c s' => if Ascii.eqb c " " then EmptyString else String c (first_word s')
  end.

Fixpoint label_of (key : pyval) (cs : list (pyval * string)) : option string :=
  match cs with
  | [] => None
  | (k, l) :: cs' => if py_eq key k then Some l else label_of key cs'
  end.

(** The colour [Piece.PIECE_CHOICES] gives a piece letter. *)
Definition Piece_colour (letter : string) : option string :=
  option_map first_word (label_of (VStr letter) Piece.PIECE_CHOICES).

(** The colour [Board] gives a piece letter, through its two lists. *)
Definition Board_colour (letter : string) : option string :=
  if mem letter Board.WHITE_PIECES then Some "White"
  else if mem letter Board.BLACK_PIECES then Some "Black"
  else None.

(** The characters of the piece-placement part of a FEN string: everything
    before the first space. *)
Fixpoint placement_letters (s : string) : list string :=
  match s with
  | EmptyString => []
  | String c s' =>
      if Ascii.eqb c " " then [] else String c EmptyString :: placement_letters s'
  end.

(** The piece letters among them: digits and slashes dropped. *)
Definition piece_letters (s : string) : list string :=
  filter (fun c => mem c (Board.WHITE_PIECES ++ Board.BLACK_PIECES))
         (placement_letters s).

(** The table [Piece.SQUARE_CHOICES] is expected to be: each index with the
    upper-cased name of its square. *)
Definition square_table : list (pyval * string) :=
  map (fun i => (VInt (Z.of_nat i), upper (square_name i))) (seq 0 64).

Fixpoint distinct (l : list string) : bool :=
  match l with
  | [] => true
  | x :: l' => negb (mem x l') && distinct l'
  end.

(** The fields whose value comes from the caller, rather than from the
    database (the automatic key) or the clock ([auto_now], [auto_now_add]). *)
Definition auto_set (f : Field) : bool :=
  match cls f with
  | AutoField => true
  | DateTimeField => is_auto_now f || is_auto_now_add f
  | _ => false
  end.

Definition data_fields (m : Model) : list Field :=
  filter (fun f => negb (auto_set f)) (fields m).

(** A failure "with [ParseError]": the call raises, and the exception's
    class is [ParseError]. *)
Definition fails_with_ParseError {A : Type} (c : py A) : Prop :=
  exists e, c = Raise e /\ exc_class e = "ParseError".

(** A choice whose stored value is a string. *)
Definition string_key (c : pyval * string) : Prop := exists s, fst c = VStr s.

Ltac string_keys := repeat constructor; eexists; reflexivity.

(** A formatter for plain values, enough to run [str] on examples. *)
Definition format_plain (o : object) : py string :=
  match o with
  | Value (VStr s) => Return s
  | Value VNone => Return "None"
  | Value (VBool true) => Return "True"
  | Value (VBool false) => Return "False"
  | Value (VUuid u) => Return u
  | _ => Raise (TypeError "format")
  end.

(** ** The remaining models of [api/models.py]

    [settings.AUTH_USER_MODEL] is a setting of the deployment, not of the
    module: the models that refer to it take it as a parameter. *)

Module Elo.

Definition rating : Field := field IntegerField "rating" [default (VInt 1200)].
Definition k_factor : Field := field IntegerField "k_factor" [default (VInt 32)].
Definition wins : Field := field IntegerField "wins" [default (VInt 0)].
Definition losses : Field := field IntegerField "losses" [default (VInt 0)].
Definition draws : Field := field IntegerField "draws" [default (VInt 0)].
Definition updated_at : Field := field DateTimeField "updated_at" [auto_now true].
Definition player (AUTH_USER_MODEL : string) : Field :=
  related ForeignKey "player" AUTH_USER_MODEL [on_delete CASCADE; null true].

Definition model (AUTH_USER_MODEL : string) : Model :=
  mkModel "Elo"
          [rating; k_factor; wins; losses; draws; updated_at; player AUTH_USER_MODEL]
          None.

End Elo.

Module Game.

Definition uuid : Field :=
  field UUIDField "uuid" [default_callable "uuid.uuid4"; primary_key true].
Definition whites_player (AUTH_USER_MODEL : string) : Field :=
  related ForeignKey "whites_player" AUTH_USER_MODEL
          [on_delete CASCADE; related_name "whites_player"; null true].
Definition blacks_player (AUTH_USER_MODEL : string) : Field :=
  related ForeignKey "blacks_player" AUTH_USER_MODEL
          [on_delete CASCADE; related_name "blacks_player"; null true].
Definition created_at : Field := field DateTimeField "created_at" [auto_now_add true].
Definition started_at : Field := field DateTimeField "started_at" [null true].
Definition finished_at : Field := field DateTimeField "finished_at" [null true].
Definition result : Field := related OneToOneField "result" "Result" [on_delete CASCADE].
Definition board : Field := related OneToOneField "board" "Board" [on_delete CASCADE].

Definition model (AUTH_USER_MODEL : string) : Model :=
  mkModel "Game"
          [uuid; whites_player AUTH_USER_MODEL; blacks_player AUTH_USER_MODEL;
           created_at; started_at; finished_at; result; board]
          None.

End Game.

Module ClaimItem.

Definition player (AUTH_USER_MODEL : string) : Field :=
  related ForeignKey "player" AUTH_USER_MODEL [on_delete CASCADE].
Definition timestamp : Field := field DateTimeField "timestamp" [auto_now_add true].
Definition claim : Field := related ForeignKey "claim" "Claim" [on_delete CASCADE].

Definition model (AUTH_USER_MODEL : string) : Model :=
  mkModel "ClaimItem" [player AUTH_USER_MODEL; timestamp; claim] None.

End ClaimItem.

(** The [Piece] class once [SQUARE_CHOICES] has been computed. *)
Definition Piece_model_with (square_choices : list (pyval * string)) : Model :=
  mkModel "Piece"
          [Piece.piece_type; Piece.square square_choices; Piece.captured; Piece.board]
          (Some (Attribute (Name "self") "piece_type")).

(** The model classes of the module, in the order of the file. *)
Definition module_models (AUTH_USER_MODEL : string)
           (square_choices : list (pyval * string)) : list Model :=
  [ Elo.model AUTH_USER_MODEL; Result.model; Board.model;
    Piece_model_with square_choices; Game.model AUTH_USER_MODEL; Move.model;
    Position.model; Claim.model; ClaimItem.model AUTH_USER_MODEL ].


(** What a field holds after construction: the keyword's value, else the
    default. *)
Definition keyword_or_default (f : Field) (kwargs : dict) (fresh : string) : pyval :=
  match get (attname f) kwargs with
  | Some v => v
  | None => get_default f fresh
  end.

(** The models whose [__str__] returns an attribute of [self], with the
    field read. *)
Definition str_fields (square_choices : list (pyval * string)) : list (Model * Field) :=
  [ (Result.model, Result.result);
    (Board.model, Board.fen);
    (Piece_model_with square_choices, Piece.piece_type);
    (Claim.model, Claim.claim_type) ].

(** The text fields declared without a default and without [null]. *)
Definition required_text_fields (square_choices : list (pyval * string))
  : list (Model * Field) :=
  [ (Piece_model_with square_choices, Piece.piece_type);
    (Move.model, Move.from_square);
    (Move.model, Move.to_square);
    (Position.model, Position.piece_file);
    (Position.model, Position.piece_rank);
    (Claim.model, Claim.claim_type) ].

(** The fields of the module that refer to another model. *)
Definition relation_names : list string :=
  ["player"; "board"; "whites_player"; "blacks_player"; "result"; "piece"; "claim"].

(** An instance of the library interface whose module defines no square
    constant, on which the failure of the class body can be run. *)
Module NoSquares.

Definition library : chess.Library :=
  {| chess.Board__init__ := fun fen => Raise (ValueError fen);
     chess.SQUARE_NAMES := ["a1"; "b1"];
     chess.module_getattr := fun attr => Raise (AttributeError attr) |}.

End NoSquares.

(** * Properties *)

(** ** Running the definitions *)

Example upper_e4 : upper "e4" = "E4".
Proof. reflexivity. Qed.

Example WHITE_PIECES_value : Board.WHITE_PIECES = ["Q"; "K"; "B"; "N"; "R"; "P"].
Proof. reflexivity. Qed.

Example square_name_28 : square_name 28 = "e4".
Proof. reflexivity. Qed.

Example Result_default :
  exists r, Model_init Result.model [] "" = Return r /\
            str format_plain Result.model r = Return "In progress".
Proof. eexists; split; reflexivity. Qed.

Example Board_default_str :
  exists r, Model_init Board.model [] "u" = Return r /\
            get "game_uuid" (attrs r) = Some (VUuid "u") /\
            str format_plain Board.model r = Return chess.STARTING_FEN.
Proof. eexists; repeat split; reflexivity. Qed.

Example Move_with_piece :
  exists r, Model_init Move.model
              [("piece", VRel "Piece" (Some 7%Z)); ("from_square", VStr "e2");
               ("to_square", VStr "e4")] "" = Return r /\
            attrs r = [("id", VNone); ("timestamp", VNone); ("piece_id", VInt 7);
                       ("from_square", VStr "e2"); ("to_square", VStr "e4")].
Proof. eexists; split; reflexivity. Qed.

Example Move_wrong_piece :
  Model_init Move.model [("piece", VRel "Board" (Some 7%Z))] "" = Raise (ValueError "piece").
Proof. reflexivity. Qed.

Example StartOnly_e4 :
  chess.module_getattr (Library := StartOnly.library) "E4" = Return (VInt 28).
Proof. reflexivity. Qed.

Example validate_result_unknown :
  validate Result.result (VStr "Resigned")
  = Raise (ValidationError "result" "invalid_choice").
Proof. reflexivity. Qed.

(** ** Dictionaries and keywords *)

Lemma bind_Return {A B : Type} (c : py A) (k : A -> py B) (b : B) :
  bind c k = Return b -> exists a, c = Return a /\ k a = Return b.
Proof.
  destruct c as [a | e]; simpl; intros H.
  - exists a; split; [reflexivity | exact H].
  - discriminate H.
Qed.

Lemma keys_remove (k k' : string) (d : dict) :
  In k (keys d) -> k = k' \/ In k (keys (remove k' d)).
Proof.
  induction d as [| [k0 v0] d IH]; simpl; intros H.
  - contradiction.
  - destruct (String.eqb_spec k' k0) as [-> | Hne].
    + destruct H as [-> | H]; [left; reflexivity | exact (IH H)].
    + destruct H as [<- | H]; [right; left; reflexivity |].
      destruct (IH H) as [-> | H']; [left; reflexivity | right; right; exact H'].
Qed.

Lemma keys_pop (k k' : string) (d d' : dict) (v : pyval) :
  pop k' d = Some (v, d') -> In k (keys d) -> k = k' \/ In k (keys d').
Proof.
  unfold pop. destruct (get k' d); intros H; inversion H; subst.
  apply keys_remove.
Qed.

Lemma keys_set (k k' : string) (v : pyval) (d : dict) :
  In k (keys (set k' v d)) -> k = k' \/ In k (keys d).
Proof.
  induction d as [| [k0 v0] d IH]; simpl.
  - intros [<- | []]; left; reflexivity.
  - destruct (String.eqb_spec k' k0) as [-> | Hne]; simpl.
    + intros [<- | H]; [left; reflexivity | right; right; exact H].
    + intros [<- | H]; [right; left; reflexivity |].
      destruct (IH H) as [-> | H']; [left; reflexivity | right; right; exact H'].
Qed.

Lemma attname_names_of (f : Field) : In (attname f) (names_of f).
Proof. unfold names_of. destruct (is_relation f); simpl; auto. Qed.

Lemma name_names_of (f : Field) : In (name f) (names_of f).
Proof.
  unfold names_of, is_relation, attname.
  destruct (cls f); simpl; auto.
Qed.

(** Every keyword the field loop consumes is a name of one of the fields,
    and every attribute it sets is an attname of one of them. *)
Lemma init_fields_sound (fs : list Field) (fresh : string) :
  forall kwargs self rest self',
    init_fields fs fresh kwargs self = Return (rest, self') ->
    (forall k, In k (keys kwargs) -> In k (keys rest) \/ In k (flat_map names_of fs))
    /\ (forall k, In k (keys self') -> In k (keys self) \/ In k (flat_map names_of fs)).
Proof.
  induction fs as [| f fs IH]; intros kwargs self rest self' H.
  - simpl in H. inversion H; subst. split; intros k Hk; left; exact Hk.
  - assert (Step : forall kw' v,
               (forall k, In k (keys kwargs) -> In k (names_of f) \/ In k (keys kw')) ->
               init_fields fs fresh kw' (set (attname f) v self) = Return (rest, self') ->
               (forall k, In k (keys kwargs) ->
                          In k (keys rest) \/ In k (flat_map names_of (f :: fs)))
               /\ (forall k, In k (keys self') ->
                             In k (keys self) \/ In k (flat_map names_of (f :: fs)))).
    { intros kw' v Hkw Hrec. destruct (IH _ _ _ _ Hrec) as [IH1 IH2].
      split; intros k Hk; simpl; rewrite in_app_iff.
      - destruct (Hkw k Hk) as [Hf | Hk']; [right; left; exact Hf |].
        destruct (IH1 k Hk') as [Hr | Hr]; [left; exact Hr | right; right; exact Hr].
      - destruct (IH2 k Hk) as [Hs | Hs]; [| right; right; exact Hs].
        destruct (keys_set _ _ _ _ Hs) as [-> | Hs'].
        + right; left. apply attname_names_of.
        + left; exact Hs'. }
    simpl in H.
    destruct (is_relation f) eqn:Hrel.
    + destruct (pop (name f) kwargs) as [[rel_obj kw'] |] eqn:Hpop.
      * apply bind_Return in H. destruct H as [v [_ H]].
        apply (Step kw' v); [| exact H].
        intros k Hk. destruct (keys_pop k _ _ Hpop Hk) as [-> | Hk'].
        -- left. apply name_names_of.
        -- right; exact Hk'.
      * destruct (pop (attname f) kwargs) as [[val kw'] |] eqn:Hpop'.
        -- apply (Step kw' val); [| exact H].
           intros k Hk. destruct (keys_pop k _ _ Hpop' Hk) as [-> | Hk'].
           ++ left. apply attname_names_of.
           ++ right; exact Hk'.
        -- apply (Step kwargs (get_default f fresh)); [| exact H].
           intros k Hk; right; exact Hk.
    + destruct (pop (attname f) kwargs) as [[val kw'] |] eqn:Hpop'.
      * apply (Step kw' val); [| exact H].
        intros k Hk. destruct (keys_pop k _ _ Hpop' Hk) as [-> | Hk'].
        -- left. apply attname_names_of.
        -- right; exact Hk'.
      * apply (Step kwargs (get_default f fresh)); [| exact H].
        intros k Hk; right; exact Hk.
Qed.

Lemma get_field_attribute (m : Model) (n : string) (f : Field) :
  get_field m n = Some f -> In n (attribute_names m).
Proof.
  unfold get_field, attribute_names. intros H.
  apply find_some in H. destruct H as [Hin Hn].
  apply in_flat_map. exists f. split; [exact Hin |].
  apply orb_true_iff in Hn.
  destruct Hn as [Hn | Hn]; apply String.eqb_eq in Hn; subst n.
  - apply name_names_of.
  - apply attname_names_of.
Qed.

Lemma pk_field_attribute (m : Model) (f : Field) :
  pk_field m = Some f -> In (attname f) (attribute_names m).
Proof.
  unfold pk_field, attribute_names. intros H.
  apply find_some in H. destruct H as [Hin _].
  apply in_flat_map. exists f. split; [exact Hin | apply attname_names_of].
Qed.

(** The second pass keeps exactly the keywords that name nothing. *)
Lemma init_properties_sound (m : Model) (rest : dict) :
  forall self unknown self',
    init_properties m rest self = (unknown, self') ->
    (forall k, In k (keys rest) -> In k (keys unknown) \/ In k (accepted_keywords m))
    /\ (forall k, In k (keys self') -> In k (keys self) \/ In k (attribute_names m)).
Proof.
  induction rest as [| [prop v] rest IH]; intros self unknown self' H; simpl in H.
  - inversion H; subst. split; intros k Hk; [contradiction | left; exact Hk].
  - destruct (String.eqb_spec prop "pk") as [-> | Hpk].
    + destruct (IH _ _ _ H) as [IH1 IH2]. split; intros k Hk.
      * simpl in Hk. destruct Hk as [<- | Hk]; [right; left; reflexivity | exact (IH1 k Hk)].
      * destruct (IH2 k Hk) as [Hs | Hs]; [| right; exact Hs].
        destruct (pk_field m) as [f |] eqn:Hf; [| left; exact Hs].
        destruct (keys_set _ _ _ _ Hs) as [-> | Hs']; [right | left; exact Hs'].
        apply pk_field_attribute; exact Hf.
    + destruct (get_field m prop) as [f |] eqn:Hf.
      * destruct (IH _ _ _ H) as [IH1 IH2]. split; intros k Hk.
        -- simpl in Hk. destruct Hk as [<- | Hk]; [| exact (IH1 k Hk)].
           right; right. eapply get_field_attribute; exact Hf.
        -- destruct (IH2 k Hk) as [Hs | Hs]; [| right; exact Hs].
           destruct (keys_set _ _ _ _ Hs) as [-> | Hs']; [right | left; exact Hs'].
           eapply get_field_attribute; exact Hf.
      * destruct (init_properties m rest self) as [unknown0 self0] eqn:Hrec.
        inversion H; subst.
        destruct (IH _ _ _ Hrec) as [IH1 IH2]. split; intros k Hk.
        -- simpl in Hk. destruct Hk as [<- | Hk]; [left; left; reflexivity |].
           destruct (IH1 k Hk) as [Hu | Ha]; [left; right; exact Hu | right; exact Ha].
        -- exact (IH2 k Hk).
Qed.

(** A construction that succeeds was given accepted keywords only, and the
    instance it returns has no attribute beyond those of the fields. *)
Lemma Model_init_sound (m : Model) (kwargs : dict) (fresh : string) (r : instance) :
  Model_init m kwargs fresh = Return r ->
  (forall k, In k (keys kwargs) -> In k (accepted_keywords m))
  /\ (forall k, In k (keys (attrs r)) -> In k (attribute_names m)).
Proof.
  unfold Model_init. intros H.
  apply bind_Return in H. destruct H as [[rest self] [Hfields H]].
  destruct (init_properties m rest self) as [unknown self'] eqn:Hprops.
  destruct unknown as [| [kwarg v] unknown]; [| discriminate H].
  inversion H; subst; simpl.
  destruct (init_fields_sound _ _ _ _ Hfields) as [F1 F2].
  destruct (init_properties_sound _ _ _ Hprops) as [P1 P2].
  split; intros k Hk.
  - destruct (F1 k Hk) as [Hr | Hf]; [| right; exact Hf].
    destruct (P1 k Hr) as [[] | Ha]; exact Ha.
  - destruct (P2 k Hk) as [Hs | Ha]; [| exact Ha].
    destruct (F2 k Hs) as [[] | Hf]; exact Hf.
Qed.

(** ** [Board.from_fen] *)

(** Whatever the library parsed, the dictionary carries [castling_rights],
    which no field of [Board] answers to, and the constructor refuses it. *)
Lemma Board_init_board_data (board : chess.Board) (fresh : string) :
  Model_init Board.model (Board.board_data board) fresh
  = Raise (TypeError "castling_rights").
Proof.
  destruct board as [f t c ep fm hm]. destruct ep; reflexivity.
Qed.

Section FromFen.
Context {L : chess.Library}.

Lemma from_fen_parsed (fen fresh : string) (board : chess.Board) :
  chess.Board__init__ fen = Return board ->
  Board.from_fen fen fresh = Raise (TypeError "castling_rights").
Proof.
  intros H. unfold Board.from_fen. rewrite H. simpl.
  apply Board_init_board_data.
Qed.

Lemma from_fen_refused (fen fresh : string) (e : exception) :
  chess.Board__init__ fen = Raise e ->
  Board.from_fen fen fresh = Raise e.
Proof.
  intros H. unfold Board.from_fen. rewrite H. reflexivity.
Qed.

Lemma from_fen_raises (fen fresh : string) :
  exists e, Board.from_fen fen fresh = Raise e.
Proof.
  destruct (chess.Board__init__ fen) as [board | e] eqn:H.
  - eexists. eapply from_fen_parsed; exact H.
  - exists e. apply from_fen_refused; exact H.
Qed.

End FromFen.

(** C1 (the code departs from the claim).  The round trip needs
    [Board.from_fen] to yield a record.  On the canonical starting position,
    once the library has parsed it, the call raises [TypeError] for the
    keyword [castling_rights] and yields no record to compare with the
    input. *)
Theorem from_fen_starting_position_raises
        (L : chess.Library) (board : chess.Board) (fresh : string) :
  chess.Board__init__ chess.STARTING_FEN = Return board ->
  Board.from_fen chess.STARTING_FEN fresh = Raise (TypeError "castling_rights")
  /\ forall r, Board.from_fen chess.STARTING_FEN fresh <> Return r.
Proof.
  intros H. pose proof (@from_fen_parsed L _ fresh _ H) as E.
  split; [exact E |]. intros r Hr. rewrite E in Hr. discriminate Hr.
Qed.

Lemma from_fen_starting_position_raises_witness :
  Board.from_fen (L := StartOnly.library) chess.STARTING_FEN "0f5a"
  = Raise (TypeError "castling_rights")
  /\ forall r, Board.from_fen (L := StartOnly.library) chess.STARTING_FEN "0f5a"
               <> Return r.
Proof.
  apply (@from_fen_starting_position_raises
           StartOnly.library StartOnly.starting_board "0f5a").
  reflexivity.
Defined.

(** C2.  [Board.from_fen] never constructs a [Board], whatever the input
    and whatever the library answers: [castling_rights] is not a keyword the
    model accepts (its field is [castling_xfen]), and the [TypeError] comes
    after parsing, so an input the library accepts is rejected too. *)
Theorem from_fen_never_constructs (L : chess.Library) (fen fresh : string) :
  (forall r, Board.from_fen fen fresh <> Return r)
  /\ (forall board, chess.Board__init__ fen = Return board ->
                    Board.from_fen fen fresh = Raise (TypeError "castling_rights"))
  /\ ~ In "castling_rights" (accepted_keywords Board.model)
  /\ In "castling_xfen" (field_names Board.model)
  /\ (forall board, In "castling_rights" (keys (Board.board_data board))).
Proof.
  split; [| split; [| split; [| split]]].
  - intros r Hr. destruct (from_fen_raises fen fresh) as [e He].
    rewrite He in Hr. discriminate Hr.
  - intros board H. apply from_fen_parsed with (board := board). exact H.
  - simpl. intros H.
    repeat (destruct H as [H | H]; [discriminate H |]). exact H.
  - simpl. auto 10.
  - intros board. simpl. auto 10.
Qed.

Lemma from_fen_never_constructs_witness :
  Board.from_fen (L := StartOnly.library) chess.STARTING_FEN ""
  = Raise (TypeError "castling_rights").
Proof.
  apply (proj1 (proj2 (from_fen_never_constructs
                         StartOnly.library chess.STARTING_FEN ""))
               StartOnly.starting_board).
  reflexivity.
Defined.

(** C3, as stated, fails: with a library that answers the empty string (a
    FEN with no field at all) by [ValueError], [Board.from_fen] raises that
    [ValueError], not a [ParseError]. *)
Lemma from_fen_empty_string_not_ParseError :
  Board.from_fen (L := StartOnly.library) "" "" = Raise (ValueError "")
  /\ ~ fails_with_ParseError (Board.from_fen (L := StartOnly.library) "" "").
Proof.
  split; [reflexivity |].
  intros [e [He Hc]]. vm_compute in He. inversion He; subst e.
  discriminate Hc.
Qed.

(** C3, amended.  When the library refuses a FEN string, [Board.from_fen]
    raises exactly the exception the library raised: it neither catches nor
    wraps it, and the caller receives it as the outcome of the call. *)
Theorem from_fen_propagates_library_error
        (L : chess.Library) (fen fresh : string) (e : exception) :
  chess.Board__init__ fen = Raise e ->
  Board.from_fen fen fresh = Raise e
  /\ forall e', Board.from_fen fen fresh = Raise e' -> e' = e.
Proof.
  intros H. pose proof (@from_fen_refused L fen fresh e H) as E.
  split; [exact E |]. intros e' He'. rewrite E in He'.
  inversion He'. reflexivity.
Qed.

Lemma from_fen_propagates_library_error_witness :
  Board.from_fen (L := StartOnly.library) "8/8/8 x" "" = Raise (ValueError "8/8/8 x")
  /\ forall e', Board.from_fen (L := StartOnly.library) "8/8/8 x" "" = Raise e' ->
                e' = ValueError "8/8/8 x".
Proof.
  apply (@from_fen_propagates_library_error StartOnly.library "8/8/8 x" "").
  reflexivity.
Defined.

(** ** Choices *)

Lemma py_eq_VStr (v : pyval) (s : string) : py_eq v (VStr s) = true -> v = VStr s.
Proof.
  destruct v as [| b | z | s' | u | m pk]; simpl; try discriminate.
  - intros H. apply String.eqb_eq in H. subst; reflexivity.
  - destruct pk; discriminate.
Qed.

(** A value that a required, editable field with [choices] lets through is
    one of the choices. *)
Lemma validate_in_choices (f : Field) (cs : list (pyval * string)) (v : pyval) :
  get_choices f = Some cs ->
  is_editable f = true ->
  is_blank f = false ->
  Forall string_key cs ->
  validate f v = Return tt ->
  In v (map fst cs).
Proof.
  intros Hcs Hed Hbl Hkeys Hv. unfold validate in Hv.
  rewrite Hed, Hcs, Hbl in Hv. simpl in Hv.
  destruct (is_empty_value v) eqn:Hempty; simpl in Hv.
  - destruct ((match v with VNone => true | _ => false end) && negb (is_null f));
      discriminate Hv.
  - destruct (existsb (fun c => py_eq v (fst c)) cs) eqn:Hex; simpl in Hv;
      [| discriminate Hv].
    apply existsb_exists in Hex. destruct Hex as [c [Hin Heq]].
    rewrite Forall_forall in Hkeys. destruct (Hkeys c Hin) as [s Hs].
    rewrite Hs in Heq. apply py_eq_VStr in Heq. subst v.
    rewrite <- Hs. apply in_map. exact Hin.
Qed.

(** C4, as stated, fails: the constructor does not check [choices], so a
    [Result] record can hold a result outside the four values. *)
Lemma Result_record_outside_vocabulary :
  exists r,
    Model_init Result.model [("result", VStr "Resigned")] "" = Return r
    /\ get "result" (attrs r) = Some (VStr "Resigned")
    /\ ~ In (VStr "Resigned")
           [VStr "White wins"; VStr "Black wins"; VStr "Draw"; VStr "In progress"].
Proof.
  eexists. split; [reflexivity | split; [reflexivity |]].
  simpl. intros H.
  repeat (destruct H as [H | H]; [discriminate H |]). exact H.
Qed.

(** C4, amended.  The vocabulary of [Result] is fixed by its [choices]:
    the [result] field admits exactly White wins, Black wins, Draw and In
    progress, and defaults to In progress; the [termination] field admits
    exactly the eight values from Abandoned to Unterminated, and defaults to
    Unterminated.  A record built without arguments holds the two defaults;
    validation accepts each listed value, and whatever a record holds in
    these fields, if validation lets it through it is one of the listed
    values. *)
Theorem Result_vocabulary_fixed :
  choice_values Result.result
  = [VStr "White wins"; VStr "Black wins"; VStr "Draw"; VStr "In progress"]
  /\ choice_values Result.termination
     = [VStr "Abandoned"; VStr "Adjudication"; VStr "Death"; VStr "Emergency";
        VStr "Normal"; VStr "Rules infraction"; VStr "Time forfeit";
        VStr "Unterminated"]
  /\ (forall fresh, get_default Result.result fresh = VStr "In progress")
  /\ (forall fresh, get_default Result.termination fresh = VStr "Unterminated")
  /\ (forall fresh, exists r,
         Model_init Result.model [] fresh = Return r
         /\ get "result" (attrs r) = Some (VStr "In progress")
         /\ get "termination" (attrs r) = Some (VStr "Unterminated"))
  /\ (forall v, In v (choice_values Result.result) ->
                validate Result.result v = Return tt)
  /\ (forall v, In v (choice_values Result.termination) ->
                validate Result.termination v = Return tt)
  /\ (forall (r : instance) (v : pyval),
         get "result" (attrs r) = Some v ->
         validate Result.result v = Return tt ->
         In v (choice_values Result.result))
  /\ (forall (r : instance) (v : pyval),
         get "termination" (attrs r) = Some v ->
         validate Result.termination v = Return tt ->
         In v (choice_values Result.termination)).
Proof.
  repeat split; try reflexivity.
  - intros fresh. eexists. repeat split; reflexivity.
  - intros v Hv. simpl in Hv.
    repeat (destruct Hv as [<- | Hv]; [reflexivity |]). contradiction.
  - intros v Hv. simpl in Hv.
    repeat (destruct Hv as [<- | Hv]; [reflexivity |]). contradiction.
  - intros r v _ Hv.
    apply (@validate_in_choices Result.result Result.RESULT_CHOICES v);
      try reflexivity; [string_keys | exact Hv].
  - intros r v _ Hv.
    apply (@validate_in_choices Result.termination Result.TERMINATION_CHOICES v);
      try reflexivity; [string_keys | exact Hv].
Qed.

Lemma Result_vocabulary_fixed_witness :
  In (VStr "Draw") (choice_values Result.result)
  /\ In (VStr "Time forfeit") (choice_values Result.termination).
Proof.
  pose (r := mkInstance "Result"
                        [("id", VInt 1); ("result", VStr "Draw");
                         ("termination", VStr "Time forfeit")]).
  destruct Result_vocabulary_fixed as [_ [_ [_ [_ [_ [_ [_ [Hres Hterm]]]]]]]].
  split.
  - apply (Hres r (VStr "Draw")); reflexivity.
  - apply (Hterm r (VStr "Time forfeit")); reflexivity.
Defined.

(** C7, as stated, fails: the constructor does not check [choices] (nor
    [max_length]), so a [Claim] record can hold a fourth claim type. *)
Lemma Claim_record_fourth_type :
  exists r,
    Model_init Claim.model [("claim_type", VStr "stalemate")] "" = Return r
    /\ get "claim_type" (attrs r) = Some (VStr "stalemate")
    /\ ~ In (VStr "stalemate") [VStr "tr"; VStr "ft"; VStr "d"].
Proof.
  eexists. split; [reflexivity | split; [reflexivity |]].
  simpl. intros H.
  repeat (destruct H as [H | H]; [discriminate H |]). exact H.
Qed.

(** C7, amended.  The claim types are exactly three: [claim_type] admits
    [tr] (threefold repetition), [ft] (fifty moves) and [d] (draw);
    validation accepts each of the three, and a value that validation lets
    through is one of the three. *)
Theorem Claim_three_types :
  Claim.CLAIM_CHOICES
  = [(VStr "tr", "Threefold repetition"); (VStr "ft", "Fifty moves");
     (VStr "d", "Draw")]
  /\ choice_values Claim.claim_type = [VStr "tr"; VStr "ft"; VStr "d"]
  /\ (forall (r : instance) (v : pyval),
         get "claim_type" (attrs r) = Some v ->
         validate Claim.claim_type v = Return tt ->
         v = VStr "tr" \/ v = VStr "ft" \/ v = VStr "d")
  /\ (forall v, In v [VStr "tr"; VStr "ft"; VStr "d"] ->
                validate Claim.claim_type v = Return tt).
Proof.
  repeat split; try reflexivity.
  - intros r v _ Hv.
    assert (Hin : In v (map fst Claim.CLAIM_CHOICES)).
    { apply (@validate_in_choices Claim.claim_type Claim.CLAIM_CHOICES v);
        try reflexivity; [string_keys | exact Hv]. }
    simpl in Hin. destruct Hin as [H | [H | [H | []]]]; subst; auto.
  - intros v [H | [H | [H | []]]]; subst; reflexivity.
Qed.

Lemma Claim_three_types_witness :
  VStr "ft" = VStr "tr" \/ VStr "ft" = VStr "ft" \/ VStr "ft" = VStr "d".
Proof.
  destruct Claim_three_types as [_ [_ [Hval _]]].
  apply (Hval (mkInstance "Claim" [("id", VInt 3); ("claim_type", VStr "ft")]));
    reflexivity.
Defined.

(** ** The [Move] and [Board] schemas *)

(** C5.  A [Move] carries the piece reference, the from-square and the
    to-square and nothing else of the move: its other fields are the
    automatic key and the creation timestamp.  A construction that succeeds
    used no keyword beyond those of the fields, the record has no other
    attribute, and a promotion piece or a move flag is refused as a
    keyword. *)
Theorem Move_stores_piece_from_to :
  field_names Move.model = ["id"; "timestamp"; "piece"; "from_square"; "to_square"]
  /\ map name (data_fields Move.model) = ["piece"; "from_square"; "to_square"]
  /\ (forall kwargs fresh r,
         Model_init Move.model kwargs fresh = Return r ->
         (forall k, In k (keys kwargs) ->
                    In k ["pk"; "id"; "timestamp"; "piece"; "piece_id";
                          "from_square"; "to_square"])
         /\ (forall k, In k (keys (attrs r)) ->
                       In k ["id"; "timestamp"; "piece"; "piece_id";
                             "from_square"; "to_square"]))
  /\ (forall flag v fresh,
         In flag ["promotion"; "capture"; "en_passant"; "castling"; "double_push";
                  "flags"] ->
         Model_init Move.model [("from_square", VStr "e7"); ("to_square", VStr "e8");
                                (flag, v)] fresh
         = Raise (TypeError flag)).
Proof.
  split; [reflexivity | split; [reflexivity | split]].
  - intros kwargs fresh r H. exact (Model_init_sound _ _ _ H).
  - intros flag v fresh Hflag. simpl in Hflag.
    repeat (destruct Hflag as [<- | Hflag]; [reflexivity |]).
    contradiction.
Qed.

Lemma Move_stores_piece_from_to_witness :
  In "from_square"
     ["pk"; "id"; "timestamp"; "piece"; "piece_id"; "from_square"; "to_square"].
Proof.
  destruct Move_stores_piece_from_to as [_ [_ [Hinit _]]].
  refine (proj1 (Hinit [("piece", VRel "Piece" (Some 7%Z));
                        ("from_square", VStr "e2"); ("to_square", VStr "e4")]
                       "" (mkInstance "Move" _) _) "from_square" _).
  - reflexivity.
  - simpl. auto.
Defined.

(** C9.  The [Board] schema has one field for each component of a FEN
    record: [fen] (default: the starting position), [turn],
    [castling_xfen], [ep_square], [halfmove_clock] (default 0) and
    [fullmove_number] (default 1).  A record built from the six structured
    fields holds exactly the values given. *)
Theorem Board_schema_mirrors_fen :
  field_names Board.model
  = ["id"; "fen"; "turn"; "castling_xfen"; "ep_square"; "fullmove_number";
     "halfmove_clock"; "updated_at"; "game_uuid"]
  /\ (forall u, get_default Board.fen u = VStr chess.STARTING_FEN)
  /\ (forall u, get_default Board.halfmove_clock u = VInt 0)
  /\ (forall u, get_default Board.fullmove_number u = VInt 1)
  /\ (forall u, get_default Board.turn u = VNone
                /\ get_default Board.castling_xfen u = VNone
                /\ get_default Board.ep_square u = VNone)
  /\ (forall f t c e h n u, exists r,
         Model_init Board.model
                    [("fen", f); ("turn", t); ("castling_xfen", c); ("ep_square", e);
                     ("halfmove_clock", h); ("fullmove_number", n)] u
         = Return r
         /\ get "fen" (attrs r) = Some f
         /\ get "turn" (attrs r) = Some t
         /\ get "castling_xfen" (attrs r) = Some c
         /\ get "ep_square" (attrs r) = Some e
         /\ get "halfmove_clock" (attrs r) = Some h
         /\ get "fullmove_number" (attrs r) = Some n).
Proof.
  repeat split; try reflexivity.
  intros f t c e h n u. eexists. repeat split; reflexivity.
Qed.

(** ** [__str__] *)

(** C10.  [str] of a [Move] or of a [Position] raises [NameError]: the
    f-strings name [from_square] and [piece_file] bare, and neither is a
    local of the method, a global of the module or a builtin.  This holds
    for every record and however values are formatted. *)
Theorem str_Move_Position_NameError (format : object -> py string) (self : instance) :
  str format Move.model self = Raise (NameError "from_square")
  /\ str format Position.model self = Raise (NameError "piece_file").
Proof. split; reflexivity. Qed.

(** The sibling methods, which write [self.], return the attribute. *)
Lemma str_Result_returns (format : object -> py string) (self : instance) (s : string) :
  get "result" (attrs self) = Some (VStr s) ->
  str format Result.model self = Return s.
Proof.
  intros H. unfold str. simpl. rewrite H. reflexivity.
Qed.

(** ** Piece letters *)

(** C6.  [Piece] and [Board] disagree on the colour of every piece
    letter: each letter of [Board.BLACK_PIECES] is labelled a White piece
    by [Piece.PIECE_CHOICES], each letter of [Board.WHITE_PIECES] a Black
    piece, and so each of the 32 piece letters of the default starting FEN
    has, by its [Piece] label, the colour opposite to the one [Board] gives
    it. *)
Theorem piece_letters_colour_inverted :
  Forall (fun p => Board_colour p = Some "Black" /\ Piece_colour p = Some "White")
         Board.BLACK_PIECES
  /\ Forall (fun p => Board_colour p = Some "White" /\ Piece_colour p = Some "Black")
            Board.WHITE_PIECES
  /\ map fst Piece.PIECE_CHOICES
     = map VStr ["P"; "N"; "B"; "R"; "Q"; "K"; "p"; "n"; "b"; "r"; "q"; "k"]
  /\ map (fun c => first_word (snd c)) Piece.PIECE_CHOICES
     = ["Black"; "Black"; "Black"; "Black"; "Black"; "Black";
        "White"; "White"; "White"; "White"; "White"; "White"]
  /\ get_default Board.fen "" = VStr chess.STARTING_FEN
  /\ length (piece_letters chess.STARTING_FEN) = 32%nat
  /\ Forall (fun c => exists b p, Board_colour c = Some b /\ Piece_colour c = Some p
                                  /\ b <> p)
            (piece_letters chess.STARTING_FEN).
Proof.
  split; [| split; [| split; [| split; [| split; [| split]]]]]; try reflexivity.
  - repeat constructor.
  - repeat constructor.
  - vm_compute piece_letters.
    repeat (apply Forall_cons;
            [do 2 eexists; split; [reflexivity | split; [reflexivity | discriminate]] |]).
    apply Forall_nil.
Qed.

(** ** Squares *)

Lemma mapM_map {A B C : Type} (f : B -> py C) (h : A -> B) (g : A -> C) (l : list A) :
  (forall a, In a l -> f (h a) = Return (g a)) ->
  mapM f (map h l) = Return (map g l).
Proof.
  induction l as [| a l IH]; intros H; simpl.
  - reflexivity.
  - rewrite (H a (or_introl eq_refl)). simpl.
    rewrite IH; [reflexivity |].
    intros a' Ha'. apply H. right; exact Ha'.
Qed.

Lemma mem_In (x : string) (l : list string) : mem x l = true <-> In x l.
Proof.
  unfold mem. rewrite existsb_exists. split.
  - intros [y [Hin Heq]]. apply String.eqb_eq in Heq. subst; exact Hin.
  - intros Hin. exists x. split; [exact Hin | apply String.eqb_refl].
Qed.

Lemma distinct_NoDup (l : list string) : distinct l = true -> NoDup l.
Proof.
  induction l as [| x l IH]; simpl; intros H.
  - constructor.
  - apply andb_true_iff in H. destruct H as [Hx Hl].
    constructor; [| exact (IH Hl)].
    intros Hin. apply mem_In in Hin. rewrite Hin in Hx. discriminate Hx.
Qed.

Lemma square_table_indices : map fst square_table = map (fun i => VInt (Z.of_nat i)) (seq 0 64).
Proof. unfold square_table. rewrite map_map. reflexivity. Qed.

Lemma square_table_NoDup_indices : NoDup (map fst square_table).
Proof.
  rewrite square_table_indices.
  apply Injective_map_NoDup; [| apply seq_NoDup].
  intros i j H. inversion H. lia.
Qed.

Lemma square_table_NoDup_names : NoDup (map snd square_table).
Proof. apply distinct_NoDup. vm_compute. reflexivity. Qed.

Lemma square_table_In (sq : pyval) (label : string) :
  In (sq, label) square_table <->
  exists i, sq = VInt i /\ (0 <= i <= 63)%Z /\ label = upper (square_name (Z.to_nat i)).
Proof.
  unfold square_table. rewrite in_map_iff. split.
  - intros [i [Heq Hin]]. apply in_seq in Hin. inversion Heq; subst.
    exists (Z.of_nat i). rewrite Nat2Z.id. repeat split; lia.
  - intros [i [-> [Hi ->]]]. exists (Z.to_nat i). split.
    + rewrite Z2Nat.id by lia. reflexivity.
    + apply in_seq. lia.
Qed.

(** C8.  Provided the library numbers the squares rank-major,
    [Piece.SQUARE_CHOICES] is a bijection between the indices 0-63 and the
    (upper-cased) algebraic names: every entry pairs an index in [0,63]
    with the name of that square, every index of [0,63] occurs, and no
    index and no name occurs twice. *)
Theorem SQUARE_CHOICES_bijection (L : chess.Library) (H : rank_major_squares L) :
  exists cs,
    Piece.SQUARE_CHOICES = Return cs
    /\ length cs = 64%nat
    /\ (forall sq label, In (sq, label) cs ->
          exists i, sq = VInt i /\ (0 <= i <= 63)%Z
                    /\ label = upper (square_name (Z.to_nat i)))
    /\ (forall i, (0 <= i <= 63)%Z ->
          In (VInt i, upper (square_name (Z.to_nat i))) cs)
    /\ NoDup (map fst cs)
    /\ NoDup (map snd cs).
Proof.
  exists square_table. split; [| split; [| split; [| split; [| split]]]].
  - unfold Piece.SQUARE_CHOICES. rewrite (names_rank_major H).
    apply mapM_map. intros i Hi. apply in_seq in Hi.
    rewrite (constants_are_indices H) by lia. reflexivity.
  - reflexivity.
  - intros sq label Hin. apply square_table_In. exact Hin.
  - intros i Hi. apply square_table_In. exists i. repeat split; lia.
  - exact square_table_NoDup_indices.
  - exact square_table_NoDup_names.
Qed.

Lemma StartOnly_rank_major : rank_major_squares StartOnly.library.
Proof.
  split.
  - reflexivity.
  - intros i Hi.
    do 64 (destruct i as [| i]; [reflexivity |]). lia.
Qed.

Lemma SQUARE_CHOICES_bijection_witness :
  exists cs,
    Piece.SQUARE_CHOICES (L := StartOnly.library) = Return cs
    /\ length cs = 64%nat
    /\ (forall sq label, In (sq, label) cs ->
          exists i, sq = VInt i /\ (0 <= i <= 63)%Z
                    /\ label = upper (square_name (Z.to_nat i)))
    /\ (forall i, (0 <= i <= 63)%Z ->
          In (VInt i, upper (square_name (Z.to_nat i))) cs)
    /\ NoDup (map fst cs)
    /\ NoDup (map snd cs).
Proof.
  apply (@SQUARE_CHOICES_bijection StartOnly.library).
  exact StartOnly_rank_major.
Defined.

Example SQUARE_CHOICES_ends :
  exists cs, Piece.SQUARE_CHOICES (L := StartOnly.library) = Return cs
             /\ nth_error cs 0 = Some (VInt 0, "A1")
             /\ nth_error cs 28 = Some (VInt 28, "E4")
             /\ nth_error cs 63 = Some (VInt 63, "H8").
Proof. eexists. repeat split; reflexivity. Qed.

(** * Further properties of the module *)

(** ** Dictionary laws *)

Lemma get_set_eq (k : string) (v : pyval) (d : dict) : get k (set k v d) = Some v.
Proof.
  induction d as [| [k0 v0] d IH]; simpl.
  - rewrite String.eqb_refl. reflexivity.
  - destruct (String.eqb_spec k k0) as [-> | Hne]; simpl.
    + rewrite String.eqb_refl. reflexivity.
    + destruct (String.eqb_spec k k0); [contradiction | exact IH].
Qed.

Lemma get_set_ne (k k' : string) (v : pyval) (d : dict) :
  k <> k' -> get k (set k' v d) = get k d.
Proof.
  intros Hne. induction d as [| [k0 v0] d IH]; simpl.
  - destruct (String.eqb_spec k k'); [contradiction | reflexivity].
  - destruct (String.eqb_spec k' k0) as [-> | Hne']; simpl.
    + destruct (String.eqb_spec k k0); [contradiction | reflexivity].
    + destruct (String.eqb_spec k k0); [reflexivity | exact IH].
Qed.

Lemma get_remove_eq (k : string) (d : dict) : get k (remove k d) = None.
Proof.
  induction d as [| [k0 v0] d IH]; simpl.
  - reflexivity.
  - destruct (String.eqb_spec k k0) as [-> | Hne]; simpl.
    + exact IH.
    + destruct (String.eqb_spec k k0); [contradiction | exact IH].
Qed.

Lemma get_remove_ne (k k' : string) (d : dict) :
  k <> k' -> get k (remove k' d) = get k d.
Proof.
  intros Hne. induction d as [| [k0 v0] d IH]; simpl.
  - reflexivity.
  - destruct (String.eqb_spec k' k0) as [-> | Hne']; simpl.
    + destruct (String.eqb_spec k k0); [contradiction | exact IH].
    + destruct (String.eqb_spec k k0); [reflexivity | exact IH].
Qed.

Lemma get_None_keys (k : string) (d : dict) : get k d = None <-> ~ In k (keys d).
Proof.
  induction d as [| [k0 v0] d IH]; simpl.
  - split; [intros _ [] | reflexivity].
  - destruct (String.eqb_spec k k0) as [-> | Hne].
    + split; [discriminate | intros H; exfalso; apply H; left; reflexivity].
    + rewrite IH. split.
      * intros H [Heq | Hin]; [apply Hne; symmetry; exact Heq | exact (H Hin)].
      * intros H Hin. apply H. right; exact Hin.
Qed.


Lemma In_remove (kv : string * pyval) (k : string) (d : dict) :
  In kv (remove k d) -> In kv d.
Proof.
  induction d as [| [k0 v0] d IH]; simpl.
  - intros [].
  - destruct (String.eqb k k0); simpl.
    + intros H; right; exact (IH H).
    + intros [H | H]; [left; exact H | right; exact (IH H)].
Qed.


Lemma pop_Some (k : string) (d d' : dict) (v : pyval) :
  pop k d = Some (v, d') -> get k d = Some v /\ d' = remove k d.
Proof.
  unfold pop. destruct (get k d); intros H; inversion H; auto.
Qed.

Lemma pop_None (k : string) (d : dict) : pop k d = None -> get k d = None.
Proof. unfold pop. destruct (get k d); [discriminate | reflexivity]. Qed.

(** ** The constructor, field by field *)

Lemma NoDup_app_disjoint {A : Type} (l l' : list A) (x : A) :
  NoDup (l ++ l') -> In x l -> ~ In x l'.
Proof.
  induction l as [| a l IH]; simpl; intros Hnd Hin Hin'.
  - exact Hin.
  - inversion Hnd as [| ? ? Hna Hnd']; subst.
    destruct Hin as [-> | Hin].
    + apply Hna. apply in_or_app. right; exact Hin'.
    + exact (IH Hnd' Hin Hin').
Qed.

Lemma NoDup_app_l {A : Type} (l l' : list A) : NoDup (l ++ l') -> NoDup l.
Proof.
  induction l as [| a l IH]; simpl; intros Hnd.
  - constructor.
  - inversion Hnd as [| ? ? Hna Hnd']; subst. constructor.
    + intros Hin. apply Hna. apply in_or_app. left; exact Hin.
    + exact (IH Hnd').
Qed.

Lemma NoDup_app_r {A : Type} (l l' : list A) : NoDup (l ++ l') -> NoDup l'.
Proof.
  induction l as [| a l IH]; simpl; intros Hnd.
  - exact Hnd.
  - inversion Hnd; subst. auto.
Qed.

Lemma names_of_relation (f : Field) :
  is_relation f = true -> NoDup (names_of f) -> name f <> attname f.
Proof.
  unfold names_of. intros -> Hnd Heq.
  inversion Hnd as [| ? ? Hna _]; subst. apply Hna. left. symmetry; exact Heq.
Qed.

Lemma In_names_flat (f : Field) (fs : list Field) (k : string) :
  In f fs -> In k (names_of f) -> In k (flat_map names_of fs).
Proof. intros Hf Hk. apply in_flat_map. exists f. split; assumption. Qed.

(** What the loop over the fields leaves behind, when the names of the
    fields are pairwise distinct: names it does not know are untouched, a
    plain field holds its keyword or its default, a relation given by an
    object holds the object's key. *)
Lemma init_fields_spec (fresh : string) (fs : list Field) :
  forall kwargs self rest self',
    NoDup (flat_map names_of fs) ->
    init_fields fs fresh kwargs self = Return (rest, self') ->
    (forall k, ~ In k (flat_map names_of fs) ->
               get k rest = get k kwargs /\ get k self' = get k self)
    /\ (forall f, In f fs -> is_relation f = false ->
                  get (attname f) rest = None
                  /\ get (attname f) self' = Some (keyword_or_default f kwargs fresh))
    /\ (forall f, In f fs -> is_relation f = true ->
                  get (name f) rest = None
                  /\ (forall v, get (name f) kwargs = Some v ->
                                exists w, set_related f v = Return w
                                          /\ get (attname f) self' = Some w
                                          /\ get (attname f) rest = get (attname f) kwargs)
                  /\ (get (name f) kwargs = None ->
                      get (attname f) rest = None
                      /\ get (attname f) self'
                         = Some (keyword_or_default f kwargs fresh))).
Proof.
  induction fs as [| f fs IH]; intros kwargs self rest self' Hnd H.
  - simpl in H. inversion H; subst.
    split; [| split]; [intros k _; split; reflexivity | intros f [] | intros f []].
  - simpl in Hnd.
    pose proof (NoDup_app_l _ _ Hnd) as Hndf.
    pose proof (NoDup_app_r _ _ Hnd) as Hndfs.
    assert (Hdisj : forall k, In k (names_of f) -> ~ In k (flat_map names_of fs))
      by (intros k; apply NoDup_app_disjoint; exact Hnd).
    assert (Hdisj' : forall k, In k (flat_map names_of fs) -> ~ In k (names_of f))
      by (intros k Hk Hk'; exact (Hdisj k Hk' Hk)).
    (* One step: the field has consumed a keyword of its own (or none) and
       set its attname to [v]; the rest of the loop ran on [kw']. *)
    assert (Step : forall kw' v,
               (forall k, ~ In k (names_of f) -> get k kw' = get k kwargs) ->
               init_fields fs fresh kw' (set (attname f) v self) = Return (rest, self') ->
               (forall k, ~ In k (flat_map names_of (f :: fs)) ->
                          get k rest = get k kwargs /\ get k self' = get k self)
               /\ (forall g, In g fs -> is_relation g = false ->
                      get (attname g) rest = None
                      /\ get (attname g) self' = Some (keyword_or_default g kwargs fresh))
               /\ (forall g, In g fs -> is_relation g = true ->
                      get (name g) rest = None
                      /\ (forall v, get (name g) kwargs = Some v ->
                             exists w, set_related g v = Return w
                                       /\ get (attname g) self' = Some w
                                       /\ get (attname g) rest = get (attname g) kwargs)
                      /\ (get (name g) kwargs = None ->
                          get (attname g) rest = None
                          /\ get (attname g) self'
                             = Some (keyword_or_default g kwargs fresh)))
               /\ (forall k, In k (names_of f) -> get k rest = get k kw')
               /\ get (attname f) self' = Some v).
    { intros kw' v Hkw Hrec.
      destruct (IH _ _ _ _ Hndfs Hrec) as [I1 [I2 I3]].
      split; [| split; [| split; [| split]]].
      - intros k Hk. simpl in Hk. rewrite in_app_iff in Hk.
        assert (Hkf : ~ In k (names_of f)) by tauto.
        assert (Hkfs : ~ In k (flat_map names_of fs)) by tauto.
        destruct (I1 k Hkfs) as [E1 E2]. split.
        + rewrite E1. apply Hkw. exact Hkf.
        + rewrite E2. apply get_set_ne. intros ->. apply Hkf. apply attname_names_of.
      - intros g Hg Hrel. destruct (I2 g Hg Hrel) as [E1 E2]. split; [exact E1 |].
        rewrite E2. unfold keyword_or_default. rewrite Hkw; [reflexivity |].
        apply Hdisj'. apply (@In_names_flat g fs _ Hg). apply attname_names_of.
      - intros g Hg Hrel. destruct (I3 g Hg Hrel) as [E1 [E2 E3]].
        assert (Hn : get (name g) kw' = get (name g) kwargs).
        { apply Hkw. apply Hdisj'. apply (@In_names_flat g fs _ Hg). apply name_names_of. }
        assert (Ha : get (attname g) kw' = get (attname g) kwargs).
        { apply Hkw. apply Hdisj'. apply (@In_names_flat g fs _ Hg). apply attname_names_of. }
        split; [exact E1 | split].
        + intros v0 Hv0. rewrite <- Hn in Hv0.
          destruct (E2 v0 Hv0) as [w [W1 [W2 W3]]].
          exists w. split; [exact W1 | split; [exact W2 |]]. rewrite W3. exact Ha.
        + intros Hnone. rewrite <- Hn in Hnone. destruct (E3 Hnone) as [W1 W2].
          split; [exact W1 |]. rewrite W2. unfold keyword_or_default.
          rewrite Ha. reflexivity.
      - intros k Hk. apply (I1 k (Hdisj k Hk)).
      - destruct (I1 (attname f) (Hdisj _ (attname_names_of f))) as [_ E].
        rewrite E. apply get_set_eq. }
    assert (Hrm : forall k0, In k0 (names_of f) ->
                             forall k, ~ In k (names_of f) ->
                                       get k (remove k0 kwargs) = get k kwargs).
    { intros k0 Hk0 k Hk. apply get_remove_ne. intros ->. exact (Hk Hk0). }
    simpl in H. destruct (is_relation f) eqn:Hrel.
    + pose proof (names_of_relation f Hrel Hndf) as Hna.
      destruct (pop (name f) kwargs) as [[rel_obj kw'] |] eqn:Hpop.
      * apply pop_Some in Hpop. destruct Hpop as [Hget ->].
        apply bind_Return in H. destruct H as [w [Hw H]].
        destruct (Step _ w (Hrm _ (name_names_of f)) H) as [S1 [S2 [S3 [S4 S5]]]].
        split; [exact S1 | split].
        -- intros g [<- | Hg] Hg'; [congruence | exact (S2 g Hg Hg')].
        -- intros g [<- | Hg] Hg'; [| exact (S3 g Hg Hg')].
           split; [| split].
           ++ rewrite (S4 _ (name_names_of f)). apply get_remove_eq.
           ++ intros v Hv. rewrite Hget in Hv. inversion Hv; subst v.
              exists w. split; [exact Hw | split; [exact S5 |]].
              rewrite (S4 _ (attname_names_of f)). apply get_remove_ne.
              intros Heq. apply Hna. symmetry; exact Heq.
           ++ intros Hnone. congruence.
      * apply pop_None in Hpop.
        destruct (pop (attname f) kwargs) as [[val kw'] |] eqn:Hpop'.
        -- apply pop_Some in Hpop'. destruct Hpop' as [Hget ->].
           destruct (Step _ val (Hrm _ (attname_names_of f)) H) as [S1 [S2 [S3 [S4 S5]]]].
           split; [exact S1 | split].
           ++ intros g [<- | Hg] Hg'; [congruence | exact (S2 g Hg Hg')].
           ++ intros g [<- | Hg] Hg'; [| exact (S3 g Hg Hg')].
              split; [| split].
              ** rewrite (S4 _ (name_names_of f)).
                 rewrite get_remove_ne by exact Hna. exact Hpop.
              ** intros v Hv. congruence.
              ** intros _. split.
                 --- rewrite (S4 _ (attname_names_of f)). apply get_remove_eq.
                 --- rewrite S5. unfold keyword_or_default. rewrite Hget. reflexivity.
        -- apply pop_None in Hpop'.
           destruct (Step kwargs (get_default f fresh) (fun k _ => eq_refl) H)
             as [S1 [S2 [S3 [S4 S5]]]].
           split; [exact S1 | split].
           ++ intros g [<- | Hg] Hg'; [congruence | exact (S2 g Hg Hg')].
           ++ intros g [<- | Hg] Hg'; [| exact (S3 g Hg Hg')].
              split; [| split].
              ** rewrite (S4 _ (name_names_of f)). exact Hpop.
              ** intros v Hv. congruence.
              ** intros _. split.
                 --- rewrite (S4 _ (attname_names_of f)). exact Hpop'.
                 --- rewrite S5. unfold keyword_or_default. rewrite Hpop'. reflexivity.
    + destruct (pop (attname f) kwargs) as [[val kw'] |] eqn:Hpop'.
      * apply pop_Some in Hpop'. destruct Hpop' as [Hget ->].
        destruct (Step _ val (Hrm _ (attname_names_of f)) H) as [S1 [S2 [S3 [S4 S5]]]].
        split; [exact S1 | split].
        -- intros g [<- | Hg] Hg'; [| exact (S2 g Hg Hg')]. split.
           ++ rewrite (S4 _ (attname_names_of f)). apply get_remove_eq.
           ++ rewrite S5. unfold keyword_or_default. rewrite Hget. reflexivity.
        -- intros g [<- | Hg] Hg'; [congruence | exact (S3 g Hg Hg')].
      * apply pop_None in Hpop'.
        destruct (Step kwargs (get_default f fresh) (fun k _ => eq_refl) H)
          as [S1 [S2 [S3 [S4 S5]]]].
        split; [exact S1 | split].
        -- intros g [<- | Hg] Hg'; [| exact (S2 g Hg Hg')]. split.
           ++ rewrite (S4 _ (attname_names_of f)). exact Hpop'.
           ++ rewrite S5. unfold keyword_or_default. rewrite Hpop'. reflexivity.
        -- intros g [<- | Hg] Hg'; [congruence | exact (S3 g Hg Hg')].
Qed.

Lemma init_fields_rest (fresh : string) (fs : list Field) :
  forall kwargs self rest self',
    init_fields fs fresh kwargs self = Return (rest, self') ->
    forall kv, In kv rest -> In kv kwargs.
Proof.
  induction fs as [| f fs IH]; intros kwargs self rest self' H kv Hkv; simpl in H.
  - inversion H; subst. exact Hkv.
  - destruct (is_relation f).
    + destruct (pop (name f) kwargs) as [[rel_obj kw'] |] eqn:Hpop.
      * apply pop_Some in Hpop. destruct Hpop as [_ ->].
        apply bind_Return in H. destruct H as [w [_ H]].
        eapply In_remove. exact (IH _ _ _ _ H kv Hkv).
      * destruct (pop (attname f) kwargs) as [[val kw'] |] eqn:Hpop'.
        -- apply pop_Some in Hpop'. destruct Hpop' as [_ ->].
           eapply In_remove. exact (IH _ _ _ _ H kv Hkv).
        -- exact (IH _ _ _ _ H kv Hkv).
    + destruct (pop (attname f) kwargs) as [[val kw'] |] eqn:Hpop'.
      * apply pop_Some in Hpop'. destruct Hpop' as [_ ->].
        eapply In_remove. exact (IH _ _ _ _ H kv Hkv).
      * exact (IH _ _ _ _ H kv Hkv).
Qed.







(** It touches only the attributes its keywords name. *)
Lemma init_properties_get (m : Model) (k : string) (rest : dict) :
  forall self,
    get k rest = None ->
    (get "pk" rest = None
     \/ forall pkf, pk_field m = Some pkf -> attname pkf <> k) ->
    get k (snd (init_properties m rest self)) = get k self.
Proof.
  induction rest as [| [prop v] rest IH]; intros self Hk Hpk; simpl.
  - reflexivity.
  - simpl in Hk. destruct (String.eqb_spec k prop) as [-> | Hne]; [discriminate Hk |].
    assert (Hpk' : get "pk" rest = None
                   \/ forall pkf, pk_field m = Some pkf -> attname pkf <> k).
    { destruct Hpk as [Hpk | Hpk]; [| right; exact Hpk].
      change (get "pk" ((prop, v) :: rest))
        with (if String.eqb "pk" prop then Some v else get "pk" rest) in Hpk.
      destruct (String.eqb "pk" prop); [discriminate Hpk | left; exact Hpk]. }
    destruct (String.eqb_spec prop "pk") as [-> | Hnpk].
    + rewrite (IH _ Hk Hpk').
      destruct (pk_field m) as [pkf |] eqn:Hf; [| reflexivity].
      destruct Hpk as [Hpk | Hpk].
      * change (get "pk" (("pk", v) :: rest))
          with (if String.eqb "pk" "pk" then Some v else get "pk" rest) in Hpk.
        rewrite String.eqb_refl in Hpk. discriminate Hpk.
      * apply get_set_ne. intros ->. exact (Hpk pkf eq_refl eq_refl).
    + destruct (get_field m prop) as [f |] eqn:Hf.
      * rewrite (IH _ Hk Hpk'). apply get_set_ne. exact Hne.
      * specialize (IH self Hk Hpk').
        destruct (init_properties m rest self) as [unknown self0]. simpl in *.
        exact IH.
Qed.



Lemma NoDup_flat_map_In {A B : Type} (g : A -> list B) (l : list A) (a b : A) (x : B) :
  NoDup (flat_map g l) -> In a l -> In b l -> In x (g a) -> In x (g b) -> a = b.
Proof.
  induction l as [| c l IH]; simpl; intros Hnd Ha Hb Hxa Hxb.
  - contradiction.
  - assert (Hin : forall d, In d l -> In x (g d) -> In x (flat_map g l)).
    { intros d Hd Hx. apply in_flat_map. exists d. split; assumption. }
    destruct Ha as [-> | Ha], Hb as [-> | Hb].
    + reflexivity.
    + exfalso. exact (@NoDup_app_disjoint _ _ _ x Hnd Hxa (Hin b Hb Hxb)).
    + exfalso. exact (@NoDup_app_disjoint _ _ _ x Hnd Hxb (Hin a Ha Hxa)).
    + exact (IH (@NoDup_app_r _ _ _ Hnd) Ha Hb Hxa Hxb).
Qed.

Lemma keys_get (k : string) (d d' : dict) :
  (forall kv, In kv d' -> In kv d) -> get k d = None -> get k d' = None.
Proof.
  intros Hincl Hk. apply get_None_keys. intros Hin.
  apply in_map_iff in Hin. destruct Hin as [[k0 v0] [Hfst Hin]]. simpl in Hfst. subst k0.
  apply get_None_keys in Hk. apply Hk.
  apply in_map_iff. exists (k, v0). split; [reflexivity | exact (Hincl _ Hin)].
Qed.

Lemma pk_condition (m : Model) (f : Field) (kwargs rest : dict) :
  NoDup (attribute_names m) ->
  In f (fields m) ->
  (forall kv, In kv rest -> In kv kwargs) ->
  get "pk" kwargs = None \/ is_primary_key f = false ->
  get "pk" rest = None
  \/ forall pkf, pk_field m = Some pkf -> attname pkf <> attname f.
Proof.
  intros Hnd Hf Hincl [Hpk | Hpk].
  - left. exact (@keys_get "pk" kwargs rest Hincl Hpk).
  - right. intros pkf Hpkf Heq. unfold pk_field in Hpkf.
    apply find_some in Hpkf. destruct Hpkf as [Hin Hkey].
    assert (pkf = f).
    { apply (@NoDup_flat_map_In _ _ names_of (fields m) pkf f (attname f) Hnd Hin Hf).
      - rewrite <- Heq. apply attname_names_of.
      - apply attname_names_of. }
    subst pkf. rewrite Hkey in Hpk. discriminate Hpk.
Qed.

Lemma Model_init_Return (m : Model) (kwargs : dict) (fresh : string) (r : instance) :
  Model_init m kwargs fresh = Return r ->
  exists rest self,
    init_fields (fields m) fresh kwargs [] = Return (rest, self)
    /\ attrs r = snd (init_properties m rest self).
Proof.
  unfold Model_init. intros H.
  apply bind_Return in H. destruct H as [[rest self] [Hfields H]].
  exists rest, self. split; [exact Hfields |].
  destruct (init_properties m rest self) as [unknown self0].
  destruct unknown as [| [kwarg v] unknown]; [| discriminate H].
  inversion H; reflexivity.
Qed.

(** A plain field of a constructed record holds its keyword, else its
    default. *)
Lemma Model_init_plain_field (m : Model) (kwargs : dict) (fresh : string)
      (r : instance) (f : Field) :
  NoDup (attribute_names m) ->
  Model_init m kwargs fresh = Return r ->
  In f (fields m) ->
  is_relation f = false ->
  get "pk" kwargs = None \/ is_primary_key f = false ->
  get (attname f) (attrs r) = Some (keyword_or_default f kwargs fresh).
Proof.
  intros Hnd H Hf Hrel Hpk.
  destruct (@Model_init_Return _ _ _ _ H) as [rest [self [Hfields ->]]].
  destruct (@init_fields_spec _ _ _ _ _ _ Hnd Hfields) as [_ [S2 _]].
  destruct (S2 f Hf Hrel) as [Hrest Hself].
  rewrite init_properties_get; [exact Hself | exact Hrest |].
  apply pk_condition with (kwargs := kwargs); try assumption.
  exact (@init_fields_rest _ _ _ _ _ _ Hfields).
Qed.

(** A relation given by an object holds what the descriptor stored. *)
Lemma Model_init_relation_field (m : Model) (kwargs : dict) (fresh : string)
      (r : instance) (f : Field) (v : pyval) :
  NoDup (attribute_names m) ->
  Model_init m kwargs fresh = Return r ->
  In f (fields m) ->
  is_relation f = true ->
  get (name f) kwargs = Some v ->
  get (attname f) kwargs = None ->
  get "pk" kwargs = None \/ is_primary_key f = false ->
  exists w, set_related f v = Return w /\ get (attname f) (attrs r) = Some w.
Proof.
  intros Hnd H Hf Hrel Hv Ha Hpk.
  destruct (@Model_init_Return _ _ _ _ H) as [rest [self [Hfields ->]]].
  destruct (@init_fields_spec _ _ _ _ _ _ Hnd Hfields) as [_ [_ S3]].
  destruct (S3 f Hf Hrel) as [_ [Hgiven _]].
  destruct (Hgiven v Hv) as [w [Hw [Hself Hrest]]].
  exists w. split; [exact Hw |].
  rewrite init_properties_get; [exact Hself | rewrite Hrest; exact Ha |].
  apply pk_condition with (kwargs := kwargs); try assumption.
  exact (@init_fields_rest _ _ _ _ _ _ Hfields).
Qed.

Lemma set_related_Return (f : Field) (v w : pyval) :
  set_related f v = Return w ->
  (v = VNone /\ w = VNone)
  \/ exists target pk, to f = Some target /\ v = VRel target pk
                       /\ w = match pk with Some k => VInt k | None => VNone end.
Proof.
  unfold set_related. destruct v as [| b | z | s | u | m pk]; try discriminate.
  - intros H; inversion H. left; split; reflexivity.
  - destruct (to f) as [t |]; [| discriminate].
    destruct (String.eqb_spec m t) as [-> | Hne]; [| discriminate].
    intros H; inversion H. right. exists t, pk. repeat split.
Qed.

Lemma module_models_NoDup (AUTH_USER_MODEL : string) (sq : list (pyval * string))
      (m : Model) :
  In m (module_models AUTH_USER_MODEL sq) -> NoDup (attribute_names m).
Proof.
  intros Hm. apply distinct_NoDup. simpl in Hm.
  repeat (destruct Hm as [<- | Hm]; [vm_compute; reflexivity |]).
  contradiction.
Qed.

Lemma module_relations (AUTH_USER_MODEL : string) (sq : list (pyval * string))
      (m : Model) (f : Field) :
  In m (module_models AUTH_USER_MODEL sq) ->
  In f (fields m) ->
  is_relation f = true ->
  is_primary_key f = false /\ In (name f) relation_names.
Proof.
  intros Hm Hf Hrel. simpl in Hm.
  repeat (destruct Hm as [<- | Hm];
          [ simpl in Hf;
            repeat (destruct Hf as [<- | Hf];
                    [ first [ discriminate Hrel
                            | split; [reflexivity | simpl; tauto] ] |]);
            contradiction |]).
  contradiction.
Qed.

(** ** Construction of the module's models *)

(** X1.  In a record built from keywords, for any model of the module,
    each plain (non-relation) field holds the value of its keyword when one
    is given and its declared default otherwise; a [pk] keyword can only
    change the primary key. *)
Theorem constructed_field_holds_keyword_or_default
        (AUTH_USER_MODEL : string) (sq : list (pyval * string)) (m : Model)
        (kwargs : dict) (fresh : string) (r : instance) (f : Field) :
  In m (module_models AUTH_USER_MODEL sq) ->
  Model_init m kwargs fresh = Return r ->
  In f (fields m) ->
  is_relation f = false ->
  get "pk" kwargs = None \/ is_primary_key f = false ->
  get (name f) (attrs r)
  = Some (match get (name f) kwargs with
          | Some v => v
          | None => get_default f fresh
          end).
Proof.
  intros Hm H Hf Hrel Hpk.
  pose proof (@Model_init_plain_field m kwargs fresh r f
                (@module_models_NoDup AUTH_USER_MODEL sq m Hm) H Hf Hrel Hpk) as E.
  unfold keyword_or_default in E.
  assert (Ha : attname f = name f).
  { unfold attname. unfold is_relation in Hrel.
    destruct (cls f); try reflexivity; discriminate Hrel. }
  rewrite Ha in E. exact E.
Qed.

Lemma constructed_field_holds_keyword_or_default_witness :
  exists r,
    Model_init (Elo.model "auth.User") [("rating", VInt 1500)] "" = Return r
    /\ get "rating" (attrs r) = Some (VInt 1500)
    /\ get "k_factor" (attrs r) = Some (VInt 32).
Proof.
  eexists. split; [reflexivity | split].
  - refine (@constructed_field_holds_keyword_or_default
              "auth.User" [] (Elo.model "auth.User") [("rating", VInt 1500)] ""
              _ Elo.rating _ _ _ _ _);
      [simpl; tauto | reflexivity | simpl; tauto | reflexivity | left; reflexivity].
  - refine (@constructed_field_holds_keyword_or_default
              "auth.User" [] (Elo.model "auth.User") [("rating", VInt 1500)] ""
              _ Elo.k_factor _ _ _ _ _);
      [simpl; tauto | reflexivity | simpl; tauto | reflexivity | left; reflexivity].
Defined.





(** X4.  A relation of a constructed record, given by object under the
    field's name, was given [None] or an instance of the field's target
    model, and the record holds that instance's key (or [None]) under
    [<name>_id]. *)
Theorem relation_holds_key_of_object
        (AUTH_USER_MODEL : string) (sq : list (pyval * string)) (m : Model)
        (kwargs : dict) (fresh : string) (r : instance) (f : Field) (v : pyval) :
  In m (module_models AUTH_USER_MODEL sq) ->
  Model_init m kwargs fresh = Return r ->
  In f (fields m) ->
  is_relation f = true ->
  get (name f) kwargs = Some v ->
  get (name f ++ "_id") kwargs = None ->
  (v = VNone /\ get (name f ++ "_id") (attrs r) = Some VNone)
  \/ (exists target pk,
         to f = Some target /\ v = VRel target pk
         /\ get (name f ++ "_id") (attrs r)
            = Some (match pk with Some k => VInt k | None => VNone end)).
Proof.
  intros Hm H Hf Hrel Hv Ha.
  assert (Hatt : attname f = name f ++ "_id").
  { unfold attname. unfold is_relation in Hrel.
    destruct (cls f); try discriminate Hrel; reflexivity. }
  rewrite <- Hatt in *.
  destruct (@module_relations AUTH_USER_MODEL sq m f Hm Hf Hrel) as [Hpk _].
  destruct (@Model_init_relation_field m kwargs fresh r f v
              (@module_models_NoDup AUTH_USER_MODEL sq m Hm) H Hf Hrel Hv Ha
              (or_intror Hpk)) as [w [Hw Hget]].
  destruct (@set_related_Return f v w Hw) as [[-> ->] | [target [pk [Ht [-> ->]]]]].
  - left. split; [reflexivity | exact Hget].
  - right. exists target, pk. split; [exact Ht | split; [reflexivity | exact Hget]].
Qed.

Lemma relation_holds_key_of_object_witness :
  exists r,
    Model_init (Game.model "auth.User")
               [("result", VRel "Result" (Some 4%Z)); ("board", VRel "Board" None)]
               "9b2e" = Return r
    /\ ((VRel "Result" (Some 4%Z) = VNone /\ get "result_id" (attrs r) = Some VNone)
        \/ (exists target pk,
               to Game.result = Some target /\ VRel "Result" (Some 4%Z) = VRel target pk
               /\ get "result_id" (attrs r)
                  = Some (match pk with Some k => VInt k | None => VNone end))).
Proof.
  eexists. split; [reflexivity |].
  refine (@relation_holds_key_of_object
            "auth.User" [] (Game.model "auth.User")
            [("result", VRel "Result" (Some 4%Z)); ("board", VRel "Board" None)]
            "9b2e" _ Game.result (VRel "Result" (Some 4%Z)) _ _ _ _ _ _);
    [simpl; tauto | reflexivity | simpl; tauto | reflexivity | reflexivity
     | reflexivity].
Defined.

(** ** [__str__] of a constructed record *)

(** X5.  For [Result], [Board], [Piece] and [Claim], whose [__str__]
    returns an attribute of [self], [str] of a constructed record returns
    the keyword given for that field, or the field's default when none was
    given (In progress, the starting position, and the empty string for
    [Piece] and [Claim]); a value that is not a string makes it raise
    [TypeError]. *)
Theorem str_of_constructed_record
        (sq : list (pyval * string)) (m : Model) (f : Field)
        (format : object -> py string) (kwargs : dict) (fresh : string)
        (r : instance) :
  In (m, f) (str_fields sq) ->
  Model_init m kwargs fresh = Return r ->
  str format m r
  = match get (name f) kwargs with
    | Some (VStr s) => Return s
    | Some _ => Raise (TypeError "__str__")
    | None =>
        if String.eqb (model_name m) "Result" then Return "In progress"
        else if String.eqb (model_name m) "Board" then Return chess.STARTING_FEN
             else Return ""
    end.
Proof.
  intros Hmf H.
  assert (Hget : In m (module_models "" sq) /\ In f (fields m)
                 /\ is_relation f = false /\ is_primary_key f = false
                 /\ str_method m = Some (Attribute (Name "self") (name f))).
  { simpl in Hmf.
    repeat (destruct Hmf as [Hmf | Hmf];
            [inversion Hmf; subst m f; simpl; repeat split; tauto |]).
    contradiction. }
  destruct Hget as [Hm [Hf [Hrel [Hpk Hstr]]]].
  pose proof (@Model_init_plain_field m kwargs fresh r f
                (@module_models_NoDup "" sq m Hm) H Hf Hrel (or_intror Hpk)) as E.
  assert (Ha : attname f = name f).
  { unfold attname. unfold is_relation in Hrel.
    destruct (cls f); try reflexivity; discriminate Hrel. }
  unfold keyword_or_default in E. rewrite Ha in E.
  unfold str. rewrite Hstr. simpl. rewrite E. simpl.
  destruct (get (name f) kwargs) as [v |].
  - destruct v; reflexivity.
  - simpl in Hmf.
    repeat (destruct Hmf as [Hmf | Hmf]; [inversion Hmf; subst m f; reflexivity |]).
    contradiction.
Qed.

Lemma str_of_constructed_record_witness :
  exists r,
    Model_init Claim.model [("claim_type", VStr "tr")] "" = Return r
    /\ str format_plain Claim.model r = Return "tr".
Proof.
  eexists. split; [reflexivity |].
  refine (@str_of_constructed_record
            [] Claim.model Claim.claim_type format_plain
            [("claim_type", VStr "tr")] "" _ _ _);
    [simpl; tauto | reflexivity].
Defined.

(** ** [Game] and the required text fields *)

(** X6.  [Game] is keyed by [uuid]: a construction that succeeds was not
    given an [id] keyword, the record has no [id] attribute, and (unless
    [pk] is given) its [uuid] is the keyword's value, else the fresh UUID
    drawn by the default. *)
Theorem Game_keyed_by_uuid
        (AUTH_USER_MODEL : string) (kwargs : dict) (fresh : string) (r : instance) :
  Model_init (Game.model AUTH_USER_MODEL) kwargs fresh = Return r ->
  ~ In "id" (keys kwargs)
  /\ get "id" (attrs r) = None
  /\ (get "pk" kwargs = None ->
      get "uuid" (attrs r)
      = Some (match get "uuid" kwargs with Some v => v | None => VUuid fresh end)).
Proof.
  intros H.
  destruct (Model_init_sound _ _ _ H) as [Hkw Hattrs].
  assert (Hid : ~ In "id" (accepted_keywords (Game.model AUTH_USER_MODEL))).
  { simpl. intros Hin.
    repeat (destruct Hin as [Hin | Hin]; [discriminate Hin |]). exact Hin. }
  split; [| split].
  - intros Hin. exact (Hid (Hkw _ Hin)).
  - apply get_None_keys. intros Hin. apply Hid. right. exact (Hattrs _ Hin).
  - intros Hpk.
    assert (Hm : In (Game.model AUTH_USER_MODEL) (module_models AUTH_USER_MODEL []))
      by (simpl; tauto).
    exact (@Model_init_plain_field (Game.model AUTH_USER_MODEL) kwargs fresh r Game.uuid
             (@module_models_NoDup AUTH_USER_MODEL [] _ Hm) H
             (or_introl eq_refl) eq_refl (or_introl Hpk)).
Qed.

Lemma Game_keyed_by_uuid_witness :
  exists r,
    Model_init (Game.model "auth.User") [("started_at", VNone)] "9b2e" = Return r
    /\ ~ In "id" (keys [("started_at", VNone)])
    /\ get "id" (attrs r) = None
    /\ (get "pk" [("started_at", VNone)] = None ->
        get "uuid" (attrs r) = Some (VUuid "9b2e")).
Proof.
  eexists. split; [reflexivity |].
  refine (@Game_keyed_by_uuid "auth.User" [("started_at", VNone)] "9b2e" _ _).
  reflexivity.
Defined.

(** X7.  The text fields declared without a default ([Piece.piece_type],
    [Move.from_square], [Move.to_square], [Position.piece_file],
    [Position.piece_rank], [Claim.claim_type]) hold the empty string in a
    record built without their keyword, and validation refuses that value
    as blank. *)
Theorem required_text_defaults_to_blank
        (sq : list (pyval * string)) (m : Model) (f : Field)
        (kwargs : dict) (fresh : string) (r : instance) :
  In (m, f) (required_text_fields sq) ->
  Model_init m kwargs fresh = Return r ->
  get (name f) kwargs = None ->
  get (name f) (attrs r) = Some (VStr "")
  /\ validate f (VStr "") = Raise (ValidationError (name f) "blank").
Proof.
  intros Hmf H Hnone.
  assert (Hfacts : In m (module_models "" sq) /\ In f (fields m)
                   /\ is_relation f = false /\ is_primary_key f = false
                   /\ attname f = name f
                   /\ get_default f fresh = VStr ""
                   /\ validate f (VStr "") = Raise (ValidationError (name f) "blank")).
  { simpl in Hmf.
    repeat (destruct Hmf as [Hmf | Hmf];
            [inversion Hmf; subst m f; simpl; repeat split; tauto |]).
    contradiction. }
  destruct Hfacts as [Hm [Hf [Hrel [Hpk [Ha [Hdef Hval]]]]]].
  split; [| exact Hval].
  pose proof (@Model_init_plain_field m kwargs fresh r f
                (@module_models_NoDup "" sq m Hm) H Hf Hrel (or_intror Hpk)) as E.
  unfold keyword_or_default in E. rewrite Ha in E. rewrite Hnone, Hdef in E. exact E.
Qed.

Lemma required_text_defaults_to_blank_witness :
  exists r,
    Model_init Move.model [("from_square", VStr "e2")] "" = Return r
    /\ get "to_square" (attrs r) = Some (VStr "")
    /\ validate Move.to_square (VStr "")
       = Raise (ValidationError "to_square" "blank").
Proof.
  eexists. split; [reflexivity |].
  refine (@required_text_defaults_to_blank
            [] Move.model Move.to_square [("from_square", VStr "e2")] "" _ _ _ _);
    [simpl; tauto | reflexivity | reflexivity].
Defined.

(** ** [Piece]: its letters and its squares *)

(** X8.  Validation of [Piece.piece_type] accepts exactly the twelve piece
    letters of [PIECE_CHOICES]. *)
Theorem piece_type_accepts_twelve_letters (v : pyval) :
  validate Piece.piece_type v = Return tt
  <-> In v (map VStr ["P"; "N"; "B"; "R"; "Q"; "K"; "p"; "n"; "b"; "r"; "q"; "k"]).
Proof.
  split.
  - intros Hv.
    apply (@validate_in_choices Piece.piece_type Piece.PIECE_CHOICES v);
      try reflexivity; [string_keys | exact Hv].
  - intros Hin. simpl in Hin.
    repeat (destruct Hin as [<- | Hin]; [reflexivity |]). contradiction.
Qed.


Lemma mapM_Raise {A B : Type} (f : A -> py B) (l : list A) (e : exception) :
  mapM f l = Raise e -> exists a, In a l /\ f a = Raise e.
Proof.
  induction l as [| a l IH]; simpl; intros H.
  - discriminate H.
  - destruct (f a) as [b | e'] eqn:Hfa; simpl in H.
    + destruct (mapM f l) as [bs | e''] eqn:Hl; simpl in H; [discriminate H |].
      inversion H; subst e''. destruct (IH eq_refl) as [a' [Hin Ha']].
      exists a'. split; [right; exact Hin | exact Ha'].
    + inversion H; subst e'. exists a. split; [left; reflexivity | exact Hfa].
Qed.

Lemma mapM_In_Raise {A B : Type} (f : A -> py B) (l : list A) (a : A) (e : exception) :
  In a l -> f a = Raise e -> exists e', mapM f l = Raise e'.
Proof.
  induction l as [| a0 l IH]; simpl; intros Hin Hfa.
  - contradiction.
  - destruct (f a0) as [b | e0] eqn:Hfa0; simpl.
    + destruct Hin as [-> | Hin]; [rewrite Hfa in Hfa0; discriminate Hfa0 |].
      destruct (IH Hin Hfa) as [e' He']. rewrite He'. simpl. exists e'. reflexivity.
    + exists e0. reflexivity.
Qed.




(** X10.  The class body of [Piece] fails exactly when the library lacks a
    constant: [SQUARE_CHOICES] raises if and only if [getattr] raises for
    the upper-cased form of some square name, the exception is one that
    [getattr] raised, and [Piece] is then not defined. *)
Theorem SQUARE_CHOICES_raises_iff_constant_missing (L : chess.Library) :
  ((exists e, Piece.SQUARE_CHOICES = Raise e)
   <-> (exists i e, In i chess.SQUARE_NAMES
                    /\ chess.module_getattr (upper i) = Raise e))
  /\ (forall e, Piece.SQUARE_CHOICES = Raise e ->
                (exists i, In i chess.SQUARE_NAMES
                           /\ chess.module_getattr (upper i) = Raise e)
                /\ Piece.model = Raise e).
Proof.
  assert (Hraise : forall e, Piece.SQUARE_CHOICES = Raise e ->
                             exists i, In i chess.SQUARE_NAMES
                                       /\ chess.module_getattr (upper i) = Raise e).
  { unfold Piece.SQUARE_CHOICES. intros e H.
    apply mapM_Raise in H. destruct H as [i [Hin Hi]].
    exists i. split; [exact Hin |].
    destruct (chess.module_getattr (upper i)) as [sq | e'];
      simpl in Hi; [discriminate Hi | inversion Hi; reflexivity]. }
  split; [split |].
  - intros [e He]. destruct (Hraise e He) as [i Hi]. exists i, e. exact Hi.
  - intros [i [e [Hin Hi]]]. unfold Piece.SQUARE_CHOICES.
    apply (@mapM_In_Raise _ _ _ _ i e Hin). rewrite Hi. reflexivity.
  - intros e He. split; [exact (Hraise e He) |].
    unfold Piece.model. rewrite He. reflexivity.
Qed.

Lemma SQUARE_CHOICES_raises_iff_constant_missing_witness :
  (exists i, In i ["a1"; "b1"]
             /\ chess.module_getattr (Library := NoSquares.library) (upper i)
                = Raise (AttributeError "A1"))
  /\ Piece.model (L := NoSquares.library) = Raise (AttributeError "A1").
Proof.
  refine (proj2 (@SQUARE_CHOICES_raises_iff_constant_missing NoSquares.library)
                (AttributeError "A1") _).
  reflexivity.
Defined.





Lemma piece_type_accepts_twelve_letters_witness :
  In (VStr "N") (map VStr ["P"; "N"; "B"; "R"; "Q"; "K"; "p"; "n"; "b"; "r"; "q"; "k"]).
Proof.
  apply (proj1 (piece_type_accepts_twelve_letters (VStr "N"))).
  reflexivity.
Defined.
